(** * Geo_Tour: the video pipeline orchestrator and the script generator

    A shallow embedding of [src/pipeline.py] (class [VideoPipeline]) and
    [src/script_generator.py] (class [ScriptGenerator]), and the properties
    of the written specification checked against them.

    Python values are modelled by the JSON-shaped fragment the program
    handles; exceptions by their class and the text [str(e)] returns; the
    stage transforms, the upstream language-model client, [json.loads], the
    file system and the caller's progress callback are collaborators taken
    as parameters.  [run] is written in a state-and-exception monad whose
    state is [self.current_project] together with the history of the
    interactions with the collaborators. *)

From Stdlib Require Import List String Ascii ZArith NArith Bool Lia.
Import ListNotations.

Set Implicit Arguments.
Set Warnings "-register-all".
Open Scope string_scope.
Open Scope list_scope.

(* ================================================================== *)
(** ** The fragment of Python's data model the program relies on *)

Module Py.

(** A Python [str] is a sequence of Unicode code points. *)
Definition codepoint := N.
Definition pystr := list codepoint.

(** An ASCII literal of the source as a [str]. *)
Definition lit (s : string) : pystr := map N_of_ascii (list_ascii_of_string s).

Fixpoint str_eqb (a b : pystr) : bool :=
  match a, b with
  | [], [] => true
  | x :: a', y :: b' => (x =? y)%N && str_eqb a' b'
  | _, _ => false
  end.

(** Values: what [json.loads] produces and what the stages exchange.
    Numbers are integers here; values are immutable. *)
Inductive pyval : Type :=
| PNone
| PBool (b : bool)
| PInt (z : Z)
| PStr (s : pystr)
| PList (l : list pyval)
| PDict (d : list (pystr * pyval)).

(** Exception classes.  [JSONDecodeError] derives from [ValueError];
    the classes gathered under [NonException] (KeyboardInterrupt,
    SystemExit, ...) derive from [BaseException] only. *)
Inductive exn_class : Type :=
| ValueError
| JSONDecodeError
| RuntimeError
| TypeError
| AttributeError
| KeyError
| IndexError
| OSError
| OtherException (name : string)
| NonException (name : string).

(** An exception: its class and what [str(e)] returns. *)
Record exn : Type := mkExn { exn_class_of : exn_class; exn_str : pystr }.

(** [isinstance(e, Exception)] *)
Definition is_Exception (e : exn) : bool :=
  match exn_class_of e with NonException _ => false | _ => true end.

(** [isinstance(e, json.JSONDecodeError)] *)
Definition is_JSONDecodeError (e : exn) : bool :=
  match exn_class_of e with JSONDecodeError => true | _ => false end.

(** The result of evaluating an expression or a call. *)
Inductive outcome (A : Type) : Type :=
| Ok (a : A)
| Raise (e : exn).
Arguments Raise {A} e.

Definition type_name (v : pyval) : string :=
  match v with
  | PNone => "NoneType" | PBool _ => "bool" | PInt _ => "int"
  | PStr _ => "str" | PList _ => "list" | PDict _ => "dict"
  end.

(** Truth value of an object, as [if x], [not x] and [x or y] use it. *)
Definition truthy (v : pyval) : bool :=
  match v with
  | PNone => false
  | PBool b => b
  | PInt z => negb (z =? 0)%Z
  | PStr s => match s with [] => false | _ => true end
  | PList l => match l with [] => false | _ => true end
  | PDict d => match d with [] => false | _ => true end
  end.

(** [x or y] *)
Definition py_or (x y : pyval) : pyval := if truthy x then x else y.

(** Dictionaries keep insertion order; a key occurs once. *)
Fixpoint dict_lookup (k : pystr) (d : list (pystr * pyval)) : option pyval :=
  match d with
  | [] => None
  | (k', v) :: d' => if str_eqb k k' then Some v else dict_lookup k d'
  end.

(** [d[k] = v]: the value of an existing key is replaced in place, a new
    key goes last. *)
Fixpoint dict_set (k : pystr) (v : pyval) (d : list (pystr * pyval))
  : list (pystr * pyval) :=
  match d with
  | [] => [(k, v)]
  | (k', v') :: d' =>
      if str_eqb k k' then (k', v) :: d' else (k', v') :: dict_set k v d'
  end.

Definition dict_keys (d : list (pystr * pyval)) : list pystr := map fst d.

(** [len(x)] *)
Definition py_len (v : pyval) : outcome nat :=
  match v with
  | PStr s => Ok (List.length s)
  | PList l => Ok (List.length l)
  | PDict d => Ok (List.length d)
  | _ => Raise (mkExn TypeError
                 (lit "object of type '" ++ lit (type_name v) ++ lit "' has no len()"))
  end.

(** [x[k]] for a string key [k] *)
Definition py_getitem (v : pyval) (k : pystr) : outcome pyval :=
  match v with
  | PDict d =>
      match dict_lookup k d with
      | Some x => Ok x
      | None => Raise (mkExn KeyError (lit "'" ++ k ++ lit "'"))
      end
  | PStr _ => Raise (mkExn TypeError (lit "string indices must be integers"))
  | PList _ =>
      Raise (mkExn TypeError (lit "list indices must be integers or slices, not str"))
  | _ => Raise (mkExn TypeError
                 (lit "'" ++ lit (type_name v) ++ lit "' object is not subscriptable"))
  end.

(** [x.get(k, default)]: only dictionaries have the method. *)
Definition py_get (v : pyval) (k : pystr) (default : pyval) : outcome pyval :=
  match v with
  | PDict d =>
      Ok (match dict_lookup k d with Some x => x | None => default end)
  | _ => Raise (mkExn AttributeError
                 (lit "'" ++ lit (type_name v) ++ lit "' object has no attribute 'get'"))
  end.

Fixpoint is_prefix (p s : pystr) : bool :=
  match p, s with
  | [], _ => true
  | _ :: _, [] => false
  | a :: p', b :: s' => (a =? b)%N && is_prefix p' s'
  end.

(** Substring test, [p in s] on two strings. *)
Fixpoint is_substring (p s : pystr) : bool :=
  is_prefix p s || match s with [] => false | _ :: s' => is_substring p s' end.

(** [x == k] for a string [k]: a string equals only an equal string. *)
Definition eq_str (x : pyval) (k : pystr) : bool :=
  match x with PStr s => str_eqb s k | _ => false end.

(** [k in x] for a string [k]: key membership on a dictionary, element
    membership on a list, substring test on a string. *)
Definition py_contains (k : pystr) (v : pyval) : outcome bool :=
  match v with
  | PDict d => Ok (match dict_lookup k d with Some _ => true | None => false end)
  | PList l => Ok (existsb (fun x => eq_str x k) l)
  | PStr s => Ok (is_substring k s)
  | _ => Raise (mkExn TypeError
                 (lit "argument of type '" ++ lit (type_name v) ++ lit "' is not iterable"))
  end.

(** [for c in x]: the characters of a string, the elements of a list, the
    keys of a dictionary. *)
Definition py_iter (v : pyval) : outcome (list pyval) :=
  match v with
  | PStr s => Ok (map (fun c => PStr [c]) s)
  | PList l => Ok l
  | PDict d => Ok (map (fun kv => PStr (fst kv)) d)
  | _ => Raise (mkExn TypeError
                 (lit "'" ++ lit (type_name v) ++ lit "' object is not iterable"))
  end.

(** [str.isspace] on one character: the code points Unicode classes as
    white space. *)
Definition isspace (c : codepoint) : bool :=
  ((9 <=? c) && (c <=? 13) || (28 <=? c) && (c <=? 32)
   || (c =? 133) || (c =? 160) || (c =? 5760)
   || (8192 <=? c) && (c <=? 8202)
   || (c =? 8232) || (c =? 8233) || (c =? 8239) || (c =? 8287)
   || (c =? 12288))%N.

Fixpoint lstrip (s : pystr) : pystr :=
  match s with
  | [] => []
  | c :: s' => if isspace c then lstrip s' else s
  end.

(** [s.strip()] *)
Definition strip (s : pystr) : pystr := rev (lstrip (rev (lstrip s))).

Section Alnum.
(** [str.isalnum] beyond ASCII follows the Unicode character database,
    which is taken as given. *)
Variable unicode_isalnum : codepoint -> bool.

(** [c.isalnum()] on one character *)
Definition isalnum (c : codepoint) : bool :=
  (if c <? 128
   then (48 <=? c) && (c <=? 57) || (65 <=? c) && (c <=? 90)
        || (97 <=? c) && (c <=? 122)
   else unicode_isalnum c)%N.

(** [s.isalnum()]: every character is alphanumeric and there is at least
    one. *)
Definition str_isalnum (s : pystr) : bool :=
  match s with [] => false | _ => forallb isalnum s end.
End Alnum.

(** [s.replace(old, new)] for one-character [old] and [new] *)
Definition replace_char (old new : codepoint) (s : pystr) : pystr :=
  map (fun c => if (c =? old)%N then new else c) s.

(** [s[:n]] *)
Definition slice_to (n : nat) (s : pystr) : pystr := firstn n s.

End Py.

(* ================================================================== *)
(** ** [src/script_generator.py] *)

Module ScriptGenerator.
Import Py.

(** What [generate] calls outside the repository. *)
Record Upstream : Type := {
  (** [self.client.chat.completions.create(...)] for a user prompt: the
      call raises, or gives a response whose [choices[i].message.content]
      is a text or [None]. *)
  create : pystr -> outcome (list (option pystr));
  (** [json.loads]; it signals a malformed document by [JSONDecodeError]. *)
  json_loads : pystr -> outcome pyval
}.

Definition bind {A B} (m : outcome A) (k : A -> outcome B) : outcome B :=
  match m with Ok a => k a | Raise e => Raise e end.

Notation "x <- m ;; k" := (bind m (fun x => k))
  (at level 61, m at next level, right associativity).

(** [try: body  except ...: handler] *)
Definition try_except {A} (body : outcome A) (handler : exn -> outcome A)
  : outcome A :=
  match body with Ok a => Ok a | Raise e => handler e end.

(** [l[0]] *)
Definition first_item {A} (l : list A) : outcome A :=
  match l with
  | x :: _ => Ok x
  | [] => Raise (mkExn IndexError (lit "list index out of range"))
  end.

(** [content.strip()] *)
Definition content_strip (content : option pystr) : outcome pystr :=
  match content with
  | Some s => Ok (strip s)
  | None => Raise (mkExn AttributeError
                    (lit "'NoneType' object has no attribute 'strip'"))
  end.

Section Generate.
Variable up : Upstream.

(** The body of the [try] statement of [generate], lines 46 to 65. *)
Definition generate_body (user_prompt : pystr) : outcome pyval :=
  choices <- create up user_prompt ;;
  choice <- first_item choices ;;
  script_text <- content_strip choice ;;
  script_data <- json_loads up script_text ;;
  has_title <- py_contains (lit "title") script_data ;;
  invalid <- (if negb has_title then Ok true
              else has_script <- py_contains (lit "script") script_data ;;
                   Ok (negb has_script)) ;;
  if (invalid : bool)
  then Raise (mkExn ValueError (lit "Invalid script structure returned"))
  else
    (* the log line formats script_data['title'] *)
    _ <- py_getitem script_data (lit "title") ;;
    Ok script_data.

(** The two [except] clauses, tried in order; an exception neither
    matches goes on to the caller. *)
Definition generate_handler (e : exn) : outcome pyval :=
  if is_JSONDecodeError e
  then Raise (mkExn ValueError
               (lit "Failed to parse script response: " ++ exn_str e))
  else if is_Exception e
  then Raise (mkExn RuntimeError
               (lit "Script generation failed: " ++ exn_str e))
  else Raise e.

(** [ScriptGenerator.generate] *)
Definition generate (user_prompt : pystr) : outcome pyval :=
  try_except (generate_body user_prompt) generate_handler.
End Generate.

End ScriptGenerator.

(* ================================================================== *)
(** ** [src/pipeline.py]: the derivation of the output file name *)

Module Filename.
Import Py.

Definition bind {A B} (m : outcome A) (k : A -> outcome B) : outcome B :=
  match m with Ok a => k a | Raise e => Raise e end.

Notation "x <- m ;; k" := (bind m (fun x => k))
  (at level 61, m at next level, right associativity).

Definition SPACE : codepoint := 32%N.
Definition HYPHEN : codepoint := 45%N.
Definition UNDERSCORE : codepoint := 95%N.

Section Derive.
Variable unicode_isalnum : codepoint -> bool.

(** [c in (' ', '-', '_')] *)
Definition in_separators (s : pystr) : bool :=
  str_eqb s [SPACE] || str_eqb s [HYPHEN] || str_eqb s [UNDERSCORE].

(** ["".join(c for c in items if c.isalnum() or c in (' ', '-', '_'))]:
    the items are visited in order; an item that is not a string has no
    [isalnum] method. *)
Fixpoint join_safe (items : list pyval) : outcome pystr :=
  match items with
  | [] => Ok []
  | PStr s :: rest =>
      tail <- join_safe rest ;;
      Ok (if str_isalnum unicode_isalnum s || in_separators s
          then s ++ tail else tail)
  | c :: _ =>
      Raise (mkExn AttributeError
               (lit "'" ++ lit (type_name c)
                ++ lit "' object has no attribute 'isalnum'"))
  end.

(** Lines 152 to 154 of [run], for the object [script_data['title']]. *)
Definition derive_output_filename (title : pyval) (timestamp : pystr)
  : outcome pystr :=
  items <- py_iter title ;;
  safe_title <- join_safe items ;;
  let safe_title := slice_to 50 (replace_char SPACE UNDERSCORE safe_title) in
  Ok (safe_title ++ lit "_" ++ timestamp ++ lit ".mp4").

(** The derivation as the specification words it: keep the alphanumeric
    characters, spaces, hyphens and underscores of the title; turn spaces
    into underscores; truncate to 50 characters; append an underscore,
    the timestamp and the extension. *)
Definition allowed (c : codepoint) : bool :=
  (isalnum unicode_isalnum c
   || (c =? SPACE) || (c =? HYPHEN) || (c =? UNDERSCORE))%N.

Definition space_to_underscore (c : codepoint) : codepoint :=
  if (c =? SPACE)%N then UNDERSCORE else c.

Definition spec_output_filename (title timestamp : pystr) : pystr :=
  firstn 50 (map space_to_underscore (filter allowed title))
  ++ [UNDERSCORE] ++ timestamp ++ lit ".mp4".
End Derive.

End Filename.

(* ================================================================== *)
(** ** [src/pipeline.py]: [VideoPipeline] *)

Module Pipeline.
Import Py.

(** The six stages, in the order [run] executes them. *)
Inductive stage : Type :=
| Script | Scenes | Storyboard | Clips | Audio | FinalVideo.

Definition stage_eqb (a b : stage) : bool :=
  match a, b with
  | Script, Script | Scenes, Scenes | Storyboard, Storyboard
  | Clips, Clips | Audio, Audio | FinalVideo, FinalVideo => true
  | _, _ => false
  end.

(** The key under which [run] records a stage in
    [self.current_project["steps"]]. *)
Definition stage_key (s : stage) : pystr :=
  lit match s with
      | Script => "script" | Scenes => "scenes" | Storyboard => "storyboard"
      | Clips => "clips" | Audio => "audio" | FinalVideo => "final_video"
      end.

(** The stages a run executes: the storyboard stage only when
    [self.use_storyboard] holds. *)
Definition stage_sequence (use_storyboard : bool) : list stage :=
  [Script; Scenes] ++ (if use_storyboard then [Storyboard] else [])
  ++ [Clips; Audio; FinalVideo].

(** [base / name] of [pathlib], kept as the pair of its operands. *)
Record path : Type := PathJoin { path_base : pystr; path_name : pystr }.

(** A call of a stage transform with its arguments:
    [script_gen.generate], [scene_planner.create_plan],
    [storyboard_gen.generate], [video_gen.generate_clips],
    [audio_gen.generate] and [assembler.assemble]. *)
Inductive stage_call : Type :=
| CallScript (user_prompt : pystr)
| CallScenes (script_data target_scenes scene_duration : pyval)
| CallStoryboard (scene_plan : pyval)
| CallClips (scene_plan storyboard_images : pyval)
| CallAudio (script_data : pyval)
| CallAssemble (clip_paths audio_path : pyval) (output_path : path).

Definition stage_of (c : stage_call) : stage :=
  match c with
  | CallScript _ => Script
  | CallScenes _ _ _ => Scenes
  | CallStoryboard _ => Storyboard
  | CallClips _ _ => Clips
  | CallAudio _ => Audio
  | CallAssemble _ _ _ => FinalVideo
  end.

(** An f-string before it is rendered: its literal text and the values it
    formats.  Rendering these values cannot raise. *)
Inductive fpart : Type :=
| FLit (s : string)
| FVal (v : pyval)
| FPathName (p : pystr).   (* [Path(p).name] *)

(** The four arguments of a progress notification. *)
Record notification : Type := mkNotification {
  step_index : nat;
  total_steps : nat;
  status_label : string;
  detail_text : list fpart
}.

(** [self.current_project] *)
Record project : Type := mkProject {
  prompt : pystr;
  timestamp : pystr;
  steps : list (pystr * pyval)
}.

(** The dictionary [run] returns; an absent key is [None] here. *)
Record RunResult : Type := mkRunResult {
  success : bool;
  video_path : option pyval;
  script : option pyval;
  scenes : option pyval;
  project_data : project;
  error : option pystr
}.

(** What a run does to its surroundings, in order: a call of the progress
    callback, a call of a stage transform (with the stage map as it stands
    when the call is made), a write of the metadata file; each with how it
    ended. *)
Inductive event : Type :=
| Notified (n : notification) (r : outcome unit)
| Invoked (c : stage_call) (recorded : list (pystr * pyval)) (r : outcome pyval)
| Saved (p : path) (snapshot : project) (r : outcome unit).

(** The surroundings of a pipeline object. *)
Record World : Type := {
  (** the six stage transforms *)
  transform : stage_call -> outcome pyval;
  (** [open(path, 'w')] followed by [json.dump] *)
  write_json : path -> project -> outcome unit;
  (** [str.isalnum] outside ASCII *)
  unicode_isalnum : codepoint -> bool;
  (** [config.OUTPUT_DIR] *)
  OUTPUT_DIR : pystr
}.

(** *** The monad of [run]: state and exceptions *)

Record state : Type := mkState {
  current_project : project;
  history : list event
}.

Definition M (A : Type) : Type := state -> outcome A * state.

Definition ret {A} (a : A) : M A := fun st => (Ok a, st).
Definition raise {A} (e : exn) : M A := fun st => (Raise e, st).

Definition bind {A B} (m : M A) (k : A -> M B) : M B :=
  fun st => match m st with
            | (Ok a, st') => k a st'
            | (Raise e, st') => (Raise e, st')
            end.

Notation "x <- m ;; k" := (bind m (fun x => k))
  (at level 61, m at next level, right associativity).
Notation "m ;;; k" := (bind m (fun _ => k))
  (at level 61, right associativity).

(** The value of a pure expression that may raise. *)
Definition eval {A} (o : outcome A) : M A := fun st => (o, st).

Definition get_project : M project := fun st => (Ok (current_project st), st).

Definition log (ev : event) : M unit :=
  fun st => (Ok tt, mkState (current_project st) (history st ++ [ev])).

(** [self.current_project["steps"][key] = value] *)
Definition record_step (key : pystr) (value : pyval) : M unit :=
  fun st =>
    let p := current_project st in
    (Ok tt,
     mkState (mkProject (prompt p) (timestamp p) (dict_set key value (steps p)))
             (history st)).

(** [try: body  except Exception as e: handler] *)
Definition try_except_Exception {A} (body : M A) (handler : exn -> M A) : M A :=
  fun st => match body st with
            | (Ok a, st') => (Ok a, st')
            | (Raise e, st') =>
                if is_Exception e then handler e st' else (Raise e, st')
            end.

Definition callback : Type := notification -> outcome unit.

Section Run.
Variable w : World.
(** [self.use_storyboard] *)
Variable use_storyboard : bool.

(** A call of a stage transform. *)
Definition call (c : stage_call) : M pyval :=
  fun st =>
    let r := transform w c in
    (r, mkState (current_project st)
                (history st ++ [Invoked c (steps (current_project st)) r])).

(** [if progress_callback: progress_callback(i, 6, label, detail)]: the
    detail expression is evaluated only when there is a callback. *)
Definition notify (progress_callback : option callback) (i : nat)
    (label : string) (detail : outcome (list fpart)) : M unit :=
  match progress_callback with
  | None => ret tt
  | Some f =>
      d <- eval detail ;;
      fun st =>
        let n := mkNotification i 6 label d in
        let r := f n in
        (r, mkState (current_project st) (history st ++ [Notified n r]))
  end.

(** [len(x)] as a Python integer *)
Definition len_val (v : pyval) : outcome pyval :=
  match py_len v with
  | Ok n => Ok (PInt (Z.of_nat n))
  | Raise e => Raise e
  end.

(** [Path(x).name], unrendered: [Path] accepts a string. *)
Definition path_name_of (v : pyval) : outcome fpart :=
  match v with
  | PStr s => Ok (FPathName s)
  | _ => Raise (mkExn TypeError
                 (lit "expected str, bytes or os.PathLike object, not "
                  ++ lit (type_name v)))
  end.

Definition obind {A B} (m : outcome A) (k : A -> outcome B) : outcome B :=
  match m with Ok a => k a | Raise e => Raise e end.

(** [_save_metadata] *)
Definition _save_metadata : M unit :=
  p <- get_project ;;
  let metadata_path :=
    PathJoin (OUTPUT_DIR w) (lit "project_" ++ timestamp p ++ lit ".json") in
  fun st =>
    let r := write_json w metadata_path (current_project st) in
    (r, mkState (current_project st)
                (history st ++ [Saved metadata_path (current_project st) r])).

(** [_print_summary]: the lines it prints read the title of the script
    and the number of scenes out of the project. *)
Definition _print_summary (video_path : pyval) : M unit :=
  p <- get_project ;;
  s <- eval (py_getitem (PDict (steps p)) (lit "script")) ;;
  _ <- eval (py_getitem s (lit "title")) ;;
  sc <- eval (py_getitem (PDict (steps p)) (lit "scenes")) ;;
  l <- eval (py_getitem sc (lit "scenes")) ;;
  _ <- eval (py_len l) ;;
  ret tt.

(** Lines 152 to 154 of [run]. *)
Definition derive_from_title (script_data : pyval) : M pystr :=
  p <- get_project ;;
  title <- eval (py_getitem script_data (lit "title")) ;;
  eval (Filename.derive_output_filename (unicode_isalnum w) title
          (timestamp p)).

(** Lines 151 to 154 of [run]: the file name the caller supplied, or
    else one derived from the title of the script. *)
Definition choose_output_filename (script_data : pyval)
    (output_filename : option pystr) : M pystr :=
  match output_filename with
  | Some f =>
      if negb (truthy (PStr f)) then derive_from_title script_data else ret f
  | None => derive_from_title script_data
  end.

(** The body of the [try] statement of [run], lines 88 to 174. *)
Definition run_body (user_prompt : pystr) (output_filename : option pystr)
    (num_scenes scene_duration : pyval) (progress_callback : option callback)
  : M RunResult :=
  let notify := notify progress_callback in
  (* Step 1: Generate script *)
  notify 1 "📝 Generating script..." (Ok [FLit "Creating narrative structure"]) ;;;
  script_data <- call (CallScript user_prompt) ;;
  record_step (lit "script") script_data ;;;
  notify 1 "✅ Script generated"
    (obind (py_get script_data (lit "title") (PStr (lit "Untitled")))
       (fun t => Ok [FLit "Title: "; FVal t])) ;;;
  (* Step 2: Plan scenes *)
  notify 2 "🎬 Planning scenes..."
    (Ok [FLit "Creating "; FVal (py_or num_scenes (PInt 5)); FLit " scenes"]) ;;;
  scene_plan <- call (CallScenes script_data num_scenes scene_duration) ;;
  record_step (lit "scenes") scene_plan ;;;
  notify 2 "✅ Scenes planned"
    (obind (py_get scene_plan (lit "scenes") (PList []))
       (fun l => obind (len_val l)
       (fun n => Ok [FVal n; FLit " scenes created"]))) ;;;
  (* Step 3: Generate storyboard (optional) *)
  storyboard_images <-
    (if use_storyboard then
       notify 3 "🎨 Generating storyboards..."
         (Ok [FLit "Creating visual storyboards for each scene"]) ;;;
       storyboard_images <- call (CallStoryboard scene_plan) ;;
       record_step (lit "storyboard") storyboard_images ;;;
       notify 3 "✅ Storyboards generated"
         (obind (len_val (py_or storyboard_images (PList [])))
            (fun n => Ok [FVal n; FLit " storyboard images created"])) ;;;
       ret storyboard_images
     else
       notify 3 "⏭️ Storyboard generation skipped"
         (Ok [FLit "Using text-to-video generation"]) ;;;
       ret PNone) ;;
  (* Step 4: Generate video clips *)
  notify 4 "🎥 Generating video clips..."
    (Ok [FLit "Creating animated video clips for each scene"]) ;;;
  clip_paths <- call (CallClips scene_plan storyboard_images) ;;
  record_step (lit "clips") clip_paths ;;;
  notify 4 "✅ Video clips generated"
    (obind (len_val clip_paths)
       (fun n => Ok [FVal n; FLit " video clips created"])) ;;;
  (* Step 5: Generate voiceover *)
  notify 5 "🎙️ Generating voiceover..."
    (Ok [FLit "Creating audio narration from script"]) ;;;
  audio_path <- call (CallAudio script_data) ;;
  record_step (lit "audio") audio_path ;;;
  notify 5 "✅ Voiceover generated"
    (obind (path_name_of audio_path)
       (fun n => Ok [FLit "Audio file created: "; n])) ;;;
  (* Step 6: Assemble final video *)
  notify 6 "🎬 Assembling final video..."
    (Ok [FLit "Combining video clips with audio"]) ;;;
  output_filename <- choose_output_filename script_data output_filename ;;
  let output_path := PathJoin (OUTPUT_DIR w) output_filename in
  final_video <- call (CallAssemble clip_paths audio_path output_path) ;;
  record_step (lit "final_video") final_video ;;;
  notify 6 "✅ Video complete!"
    (Ok [FLit "Final video saved: "; FVal (PStr output_filename)]) ;;;
  (* Save project metadata *)
  _save_metadata ;;;
  (* print summary *)
  _print_summary final_video ;;;
  p <- get_project ;;
  ret (mkRunResult true (Some final_video) (Some script_data)
         (Some scene_plan) p None).

(** The [except Exception as e] clause of [run], lines 176 to 182. *)
Definition run_handler (e : exn) : M RunResult :=
  p <- get_project ;;
  ret (mkRunResult false None None None p (Some (exn_str e))).

(** [VideoPipeline.run]; [now] is the text
    [datetime.now().strftime("%Y%m%d_%H%M%S")] yields when the run
    starts. *)
Definition run (user_prompt : pystr) (output_filename : option pystr)
    (num_scenes scene_duration : pyval) (progress_callback : option callback)
    (now : pystr) : outcome RunResult * state :=
  try_except_Exception
    (run_body user_prompt output_filename num_scenes scene_duration
       progress_callback)
    run_handler
    (mkState (mkProject user_prompt now []) []).
End Run.

(** *** What can be read off the history of a run *)

(** The stage transforms that were called, in order. *)
Fixpoint invoked (h : list event) : list stage :=
  match h with
  | [] => []
  | Invoked c _ _ :: h' => stage_of c :: invoked h'
  | _ :: h' => invoked h'
  end.

(** The outputs of the stage transforms that returned, under the keys of
    their stages, in order. *)
Fixpoint completed (h : list event) : list (pystr * pyval) :=
  match h with
  | [] => []
  | Invoked c _ (Ok v) :: h' => (stage_key (stage_of c), v) :: completed h'
  | _ :: h' => completed h'
  end.

(** The stage transforms that raised, each with its exception. *)
Fixpoint raised_stages (h : list event) : list (stage * exn) :=
  match h with
  | [] => []
  | Invoked c _ (Raise e) :: h' => (stage_of c, e) :: raised_stages h'
  | _ :: h' => raised_stages h'
  end.

(** The exceptions the progress callback raised. *)
Fixpoint callback_raises (h : list event) : list (notification * exn) :=
  match h with
  | [] => []
  | Notified n (Raise e) :: h' => (n, e) :: callback_raises h'
  | _ :: h' => callback_raises h'
  end.

(** The notifications passed to the progress callback, in order. *)
Fixpoint notifications (h : list event) : list notification :=
  match h with
  | [] => []
  | Notified n _ :: h' => n :: notifications h'
  | _ :: h' => notifications h'
  end.

(** The attempts to write the metadata file: what was to be written and
    how the attempt ended. *)
Fixpoint metadata_writes (h : list event) : list (project * outcome unit) :=
  match h with
  | [] => []
  | Saved _ snapshot r :: h' => (snapshot, r) :: metadata_writes h'
  | _ :: h' => metadata_writes h'
  end.

(** The output paths handed to the assembler. *)
Fixpoint assembled_paths (h : list event) : list path :=
  match h with
  | [] => []
  | Invoked (CallAssemble _ _ p) _ _ :: h' => p :: assembled_paths h'
  | _ :: h' => assembled_paths h'
  end.

(** The script data handed to the scene planner. *)
Fixpoint planned_scripts (h : list event) : list pyval :=
  match h with
  | [] => []
  | Invoked (CallScenes sd _ _) _ _ :: h' => sd :: planned_scripts h'
  | _ :: h' => planned_scripts h'
  end.

(** The stage maps the stage transforms found when they were called. *)
Fixpoint recorded_at_calls (h : list event)
  : list (stage * list (pystr * pyval)) :=
  match h with
  | [] => []
  | Invoked c rec _ :: h' => (stage_of c, rec) :: recorded_at_calls h'
  | _ :: h' => recorded_at_calls h'
  end.

(** The labels [run] uses before a stage and after it. *)
Inductive phase : Type := Starting | Completed | Skipped.

Definition label_phase (label : string) : option phase :=
  if existsb (String.eqb label)
       ["📝 Generating script..."; "🎬 Planning scenes...";
        "🎨 Generating storyboards..."; "🎥 Generating video clips...";
        "🎙️ Generating voiceover..."; "🎬 Assembling final video..."]
  then Some Starting
  else if existsb (String.eqb label)
       ["✅ Script generated"; "✅ Scenes planned"; "✅ Storyboards generated";
        "✅ Video clips generated"; "✅ Voiceover generated";
        "✅ Video complete!"]
  then Some Completed
  else if String.eqb label "⏭️ Storyboard generation skipped"
  then Some Skipped
  else None.

Definition is_starting (n : notification) : bool :=
  match label_phase (status_label n) with Some Starting => true | _ => false end.

Definition is_completed (n : notification) : bool :=
  match label_phase (status_label n) with Some Completed => true | _ => false end.

Definition is_skipped (n : notification) : bool :=
  match label_phase (status_label n) with Some Skipped => true | _ => false end.

(** *** Reasoning about [M]: the condition under which a computation ends
    in a state satisfying [Q] when it returns and [E] when it raises *)

Definition wp {A} (m : M A) (Q : A -> state -> Prop)
    (E : exn -> state -> Prop) (st : state) : Prop :=
  match m st with
  | (Ok a, st') => Q a st'
  | (Raise e, st') => E e st'
  end.

(** A property of the way a run ends. *)
Definition final (Phi : outcome RunResult * state -> Prop)
    (x : outcome RunResult * state) : Prop := Phi x.

(** What [run] makes of an exception that leaves its [try] body. *)
Definition handled (e : exn) (st : state) : outcome RunResult * state :=
  if is_Exception e
  then (Ok (mkRunResult false None None None (current_project st)
              (Some (exn_str e))), st)
  else (Raise e, st).

(** How a run ends once the exception [e] has left the body of [run]:
    with a failure result that carries the message of [e] and the project
    as it stands, or, for an exception outside [Exception], with [e]
    itself. *)
Definition ends_with (e : exn) (x : outcome RunResult * state) : Prop :=
  match fst x with
  | Ok r =>
      is_Exception e = true
      /\ success r = false
      /\ error r = Some (exn_str e)
      /\ video_path r = None
      /\ project_data r = current_project (snd x)
  | Raise e' => is_Exception e = false /\ e' = e
  end.

(** [__init__]: the [use_storyboard] argument when it is given, else
    [config.USE_STORYBOARD]. *)
Definition init_use_storyboard (use_storyboard : option bool)
    (USE_STORYBOARD : bool) : bool :=
  match use_storyboard with Some b => b | None => USE_STORYBOARD end.

End Pipeline.

(* ================================================================== *)
(** ** Sentences of the specification, as they are worded *)

Module SpecStatements.
Import Py Pipeline.

Definition result_success (x : outcome RunResult * state) : option bool :=
  match fst x with Ok r => Some (success r) | Raise _ => None end.

(** "It must still attempt metadata persistence even on failure": when a
    stage transform raised, a metadata write was attempted and its
    content is the stages that completed before the failure. *)
Definition persists_on_stage_failure (x : outcome RunResult * state) : Prop :=
  raised_stages (history (snd x)) <> [] ->
  exists snapshot r,
    In (snapshot, r) (metadata_writes (history (snd x)))
    /\ steps snapshot = completed (history (snd x)).

(** "Metadata persistence failures ... never override or hide the
    pipeline's own success/failure outcome": when every stage of the
    sequence returned and the metadata write raised, the result still
    reports success and no error. *)
Definition persistence_failure_is_harmless (use_storyboard : bool)
    (x : outcome RunResult * state) : Prop :=
  map fst (completed (history (snd x)))
    = map stage_key (stage_sequence use_storyboard) ->
  (exists snapshot e,
     In (snapshot, Raise e) (metadata_writes (history (snd x)))) ->
  exists r, fst x = Ok r /\ success r = true /\ error r = None.

(** "[The progress sink] must never be able to alter control flow": the
    stages invoked, the stage map and the success flag are those of the
    same run with a callback that returns normally. *)
Definition callback_is_observational (w : World) (use_storyboard : bool)
    (user_prompt : pystr) (output_filename : option pystr)
    (num_scenes scene_duration : pyval) (now : pystr) (f : callback) : Prop :=
  let x := run w use_storyboard user_prompt output_filename num_scenes
             scene_duration (Some f) now in
  let y := run w use_storyboard user_prompt output_filename num_scenes
             scene_duration (Some (fun _ => Ok tt)) now in
  invoked (history (snd x)) = invoked (history (snd y))
  /\ steps (current_project (snd x)) = steps (current_project (snd y))
  /\ result_success x = result_success y.

(** "[success == false] implies error is a non-empty string" *)
Definition failure_has_nonempty_error (x : outcome RunResult * state) : Prop :=
  forall r, fst x = Ok r -> success r = false ->
  exists m, error r = Some m /\ m <> [].

(** "... and the stage map contains a strict prefix of the stage
    sequence" *)
Definition failure_has_strict_prefix (use_storyboard : bool)
    (x : outcome RunResult * state) : Prop :=
  forall r, fst x = Ok r -> success r = false ->
  exists k, k < List.length (stage_sequence use_storyboard)
    /\ dict_keys (steps (project_data r))
       = map stage_key (firstn k (stage_sequence use_storyboard)).

(** "ScriptOutput: both fields non-empty after successful generation" *)
Definition nonempty_field (k : pystr) (v : pyval) : Prop :=
  exists s, py_getitem v k = Ok (PStr s) /\ s <> [].

Definition script_fields_nonempty (v : pyval) : Prop :=
  nonempty_field (lit "title") v /\ nonempty_field (lit "script") v.

(** "the orchestrator will not invoke dependent stages if this invariant
    is violated" *)
Definition invalid_script_stops_run (x : outcome RunResult * state) : Prop :=
  forall v, In v (planned_scripts (history (snd x))) -> script_fields_nonempty v.

(** A file name the caller supplies is used as it is. *)
Definition supplied_filename_used (w : World)
    (output_filename : option pystr) (x : outcome RunResult * state) : Prop :=
  forall f, output_filename = Some f ->
  forall p, In p (assembled_paths (history (snd x))) ->
  p = PathJoin (OUTPUT_DIR w) f.

(** Step indices never decrease. *)
Definition steps_nondecreasing (ns : list notification) : Prop :=
  forall l1 a l2 b l3, ns = l1 ++ a :: l2 ++ b :: l3 ->
  step_index a <= step_index b.

(** No "completed" notification of step [k] comes after a "starting"
    notification of step [k+1]. *)
Definition completed_before_next_start (ns : list notification) : Prop :=
  forall l1 a l2 b l3, ns = l1 ++ a :: l2 ++ b :: l3 ->
  is_starting a = true -> is_completed b = true ->
  step_index b + 1 <> step_index a.

(** A "starting" notification of a step after the first comes after a
    "completed" notification of the step before it, or after the notice
    that this step was skipped. *)
Definition start_follows_previous_step (ns : list notification) : Prop :=
  forall l1 a l2, ns = l1 ++ a :: l2 ->
  is_starting a = true -> step_index a <> 1 ->
  exists b, In b l1 /\ step_index b + 1 = step_index a
    /\ (is_completed b = true \/ is_skipped b = true).

(** When a stage transform is called, the stage map is exactly the
    outputs of the stages that returned before the call, each under the
    key of its stage and with the value that stage returned; and these
    are the stages that precede the called one in the sequence, all of
    them and no other. *)
Definition recorded_before_next_stage (use_storyboard : bool)
    (h : list event) : Prop :=
  forall h1 c recorded r h2, h = h1 ++ Invoked c recorded r :: h2 ->
  recorded = completed h1
  /\ exists k, nth_error (stage_sequence use_storyboard) k = Some (stage_of c)
       /\ dict_keys recorded
          = map stage_key (firstn k (stage_sequence use_storyboard)).

End SpecStatements.

(* ================================================================== *)
(** ** Decision procedures for the ordering properties *)

Module Checks.
Import Py Pipeline.

(** [R a b] for every [a] that comes before a [b] in the list. *)
Fixpoint all_pairs {A} (R : A -> A -> bool) (l : list A) : bool :=
  match l with
  | [] => true
  | a :: l' => forallb (R a) l' && all_pairs R l'
  end.

(** [R seen a] for every [a] of the list, [seen] being what comes before
    it. *)
Fixpoint all_preceded {A} (R : list A -> A -> bool) (seen l : list A) : bool :=
  match l with
  | [] => true
  | a :: l' => R seen a && all_preceded R (seen ++ [a]) l'
  end.

Definition start_follows (seen : list notification) (a : notification) : bool :=
  negb (is_starting a) || (step_index a =? 1)%nat
  || existsb (fun b => (step_index b + 1 =? step_index a)%nat
                       && (is_completed b || is_skipped b)) seen.

Definition step_le (a b : notification) : bool :=
  (step_index a <=? step_index b)%nat.

Definition not_start_then_completed (a b : notification) : bool :=
  negb (is_starting a && is_completed b
        && (step_index b + 1 =? step_index a)%nat).

Fixpoint keys_eqb (a b : list pystr) : bool :=
  match a, b with
  | [], [] => true
  | x :: a', y :: b' => str_eqb x y && keys_eqb a' b'
  | _, _ => false
  end.

(** The stage is the [k]-th of the sequence and the keys are those of the
    [k] stages before it. *)
Definition recorded_ok (use_storyboard : bool) (sk : stage * list pystr)
    (k : nat) : bool :=
  match nth_error (stage_sequence use_storyboard) k with
  | Some s' =>
      stage_eqb (fst sk) s'
      && keys_eqb (snd sk)
           (map stage_key (firstn k (stage_sequence use_storyboard)))
  | None => false
  end.

Definition order_check (use_storyboard : bool) (h : list event) : bool :=
  all_pairs step_le (notifications h)
  && all_pairs not_start_then_completed (notifications h)
  && all_preceded start_follows [] (notifications h)
  && forallb (fun sk =>
                existsb (recorded_ok use_storyboard (fst sk, dict_keys (snd sk)))
                  (seq 0 6))
       (recorded_at_calls h).

(** Every stage call of [h] found, as its stage map, the outputs of the
    stages that had returned until then; [seen] is what came before
    [h]. *)
Fixpoint outputs_recorded (seen h : list event) : Prop :=
  match h with
  | [] => True
  | Invoked c recorded r :: h' =>
      recorded = completed seen
      /\ outputs_recorded (seen ++ [Invoked c recorded r]) h'
  | ev :: h' => outputs_recorded (seen ++ [ev]) h'
  end.

End Checks.

(* ================================================================== *)
(** ** Concrete surroundings for the examples *)

Module Examples.
Import Py Pipeline.

(** A text between double quotes. *)
Definition quoted (s : pystr) : pystr := [34%N] ++ s ++ [34%N].

(** A JSON object of string fields, as text. *)
Fixpoint json_fields (fields : list (string * string)) : pystr :=
  match fields with
  | [] => []
  | [(k, v)] => quoted (lit k) ++ lit ": " ++ quoted (lit v)
  | (k, v) :: rest =>
      quoted (lit k) ++ lit ": " ++ quoted (lit v) ++ lit ", "
      ++ json_fields rest
  end.

Definition json_text (fields : list (string * string)) : pystr :=
  lit "{" ++ json_fields fields ++ lit "}".

Definition json_value (fields : list (string * string)) : pyval :=
  PDict (map (fun kv => (lit (fst kv), PStr (lit (snd kv)))) fields).

Definition doc_rainbows : list (string * string) :=
  [("title", "How Rainbows Form!"); ("script", "Sunlight meets rain.")].
Definition doc_only_title : list (string * string) :=
  [("title", "Only a title")].
Definition doc_empty_fields : list (string * string) :=
  [("title", ""); ("script", "")].
Definition text_not_json : pystr := lit "Sure! Here is your script".

(** [json.loads] on the documents above; any other text is taken for
    malformed. *)
Definition json_loads_table (s : pystr) : outcome pyval :=
  if str_eqb s (json_text doc_rainbows) then Ok (json_value doc_rainbows)
  else if str_eqb s (json_text doc_only_title) then Ok (json_value doc_only_title)
  else if str_eqb s (json_text doc_empty_fields) then Ok (json_value doc_empty_fields)
  else Raise (mkExn JSONDecodeError
                (lit "Expecting value: line 1 column 1 (char 0)")).

(** An upstream model that answers every prompt with one choice of the
    given content. *)
Definition upstream_answering (content : pystr) : ScriptGenerator.Upstream :=
  {| ScriptGenerator.create := fun _ => Ok [Some content];
     ScriptGenerator.json_loads := json_loads_table |}.

Definition scene_plan_2 : pyval :=
  PDict [(lit "scenes",
          PList [PDict [(lit "scene_number", PInt 1)];
                 PDict [(lit "scene_number", PInt 2)]])].

(** What each stage after the script returns when it succeeds. *)
Definition stage_output (c : stage_call) : pyval :=
  match c with
  | CallScript _ => json_value doc_rainbows
  | CallScenes _ _ _ => scene_plan_2
  | CallStoryboard _ => PList [PStr (lit "s1.png"); PStr (lit "s2.png")]
  | CallClips _ _ => PList [PStr (lit "c1.mp4"); PStr (lit "c2.mp4")]
  | CallAudio _ => PStr (lit "temp/voiceover.mp3")
  | CallAssemble _ _ p => PStr (path_base p ++ lit "/" ++ path_name p)
  end.

(** A world whose script stage is [ScriptGenerator.generate] over the
    given upstream, whose other stages succeed unless [failing] names an
    exception for them, and whose metadata write ends as [write]. *)
Definition world (up : ScriptGenerator.Upstream)
    (failing : stage -> option exn) (write : outcome unit) : World :=
  {| transform := fun c =>
       match c with
       | CallScript user_prompt => ScriptGenerator.generate up user_prompt
       | _ => match failing (stage_of c) with
              | Some e => Raise e
              | None => Ok (stage_output c)
              end
       end;
     write_json := fun _ _ => write;
     unicode_isalnum := fun _ => false;
     OUTPUT_DIR := lit "output" |}.

Definition no_failure : stage -> option exn := fun _ => None.

Definition failing_at (s : stage) (e : exn) : stage -> option exn :=
  fun s' => if stage_eqb s s' then Some e else None.

Definition good_world : World :=
  world (upstream_answering (json_text doc_rainbows)) no_failure (Ok tt).

(** A callback that raises [e] on the notification labelled [label] and
    returns normally on the others. *)
Definition raising_on (label : string) (e : exn) : callback :=
  fun n => if String.eqb (status_label n) label then Raise e else Ok tt.

Definition quiet : callback := fun _ => Ok tt.

Definition prompt_rainbows : pystr := lit "Explain how rainbows form".
Definition now_sample : pystr := lit "20240131_093000".

Definition disk_full : exn :=
  mkExn OSError (lit "[Errno 28] No space left on device").

Definition provider_down : exn :=
  mkExn (OtherException "ReplicateError") (lit "Service unavailable (503)").

(** What a bare [assert] raises when it fails: [str(e)] is empty. *)
Definition bare_assertion : exn := mkExn (OtherException "AssertionError") [].

Definition widget_gone : exn :=
  mkExn RuntimeError (lit "progress widget is gone").

(** The runs of the examples: storyboard generation disabled, no scene
    count or duration given. *)
Definition run_in (w : World) (output_filename : option pystr)
    (progress_callback : option callback) : outcome RunResult * state :=
  run w false prompt_rainbows output_filename PNone PNone progress_callback
    now_sample.

(** Every collaborator succeeds. *)
Definition run_good : outcome RunResult * state :=
  run_in good_world None (Some quiet).

(** The model answers with a text that is not JSON. *)
Definition run_script_fails : outcome RunResult * state :=
  run_in (world (upstream_answering text_not_json) no_failure (Ok tt))
    None (Some quiet).

(** The model answers with empty title and script. *)
Definition empty_script_world : World :=
  world (upstream_answering (json_text doc_empty_fields)) no_failure (Ok tt).

Definition run_empty_script : outcome RunResult * state :=
  run_in empty_script_world None None.

(** The video provider fails once script and scenes are there. *)
Definition run_clips_fail : outcome RunResult * state :=
  run_in (world (upstream_answering (json_text doc_rainbows))
            (failing_at Clips provider_down) (Ok tt))
    None (Some quiet).

(** Every stage succeeds and the metadata file cannot be written. *)
Definition run_disk_full : outcome RunResult * state :=
  run_in (world (upstream_answering (json_text doc_rainbows)) no_failure
            (Raise disk_full))
    None (Some quiet).

(** The callback raises on the first notification. *)
Definition run_callback_raises_first : outcome RunResult * state :=
  run_in good_world None
    (Some (raising_on "📝 Generating script..." widget_gone)).

(** The callback fails a bare assertion on the last notification. *)
Definition run_callback_raises_last : outcome RunResult * state :=
  run_in good_world None (Some (raising_on "✅ Video complete!" bare_assertion)).

(** The caller passes an empty output file name. *)
Definition run_empty_filename : outcome RunResult * state :=
  run_in good_world (Some []) None.

(** The caller passes an output file name with characters the derivation
    would drop. *)
Definition custom_name : pystr := lit "my video (final).mov".

Definition run_custom_filename : outcome RunResult * state :=
  run_in good_world (Some custom_name) None.

(** The result of a run that returned. *)
Definition returned (x : outcome RunResult * state) : option RunResult :=
  match fst x with Ok r => Some r | Raise _ => None end.

End Examples.

(* ================================================================== *)
(** ** More to read off a run *)

Module Observations.
Import Py Pipeline.

(** The history without the calls of the progress callback. *)
Fixpoint drop_notifications (h : list event) : list event :=
  match h with
  | [] => []
  | Notified _ _ :: h' => drop_notifications h'
  | ev :: h' => ev :: drop_notifications h'
  end.

(** The paths of the metadata files a run tried to write. *)
Fixpoint metadata_paths (h : list event) : list path :=
  match h with
  | [] => []
  | Saved p _ _ :: h' => p :: metadata_paths h'
  | _ :: h' => metadata_paths h'
  end.

(** The exception an event ended with, if it raised. *)
Definition raised_by (ev : event) : option exn :=
  match ev with
  | Notified _ (Raise e) | Invoked _ _ (Raise e) | Saved _ _ (Raise e) => Some e
  | _ => None
  end.

(** Where the arguments of a stage call come from: the caller's
    arguments and the outputs recorded in the stage map when the call is
    made. *)
Definition wired (use_storyboard : bool) (user_prompt : pystr)
    (num_scenes scene_duration : pyval) (c : stage_call)
    (recorded : list (pystr * pyval)) : Prop :=
  match c with
  | CallScript p => p = user_prompt
  | CallScenes script_data n d =>
      dict_lookup (lit "script") recorded = Some script_data
      /\ n = num_scenes /\ d = scene_duration
  | CallStoryboard scene_plan =>
      dict_lookup (lit "scenes") recorded = Some scene_plan
  | CallClips scene_plan images =>
      dict_lookup (lit "scenes") recorded = Some scene_plan
      /\ (if use_storyboard
          then dict_lookup (lit "storyboard") recorded = Some images
          else images = PNone)
  | CallAudio script_data =>
      dict_lookup (lit "script") recorded = Some script_data
  | CallAssemble clip_paths audio_path _ =>
      dict_lookup (lit "clips") recorded = Some clip_paths
      /\ dict_lookup (lit "audio") recorded = Some audio_path
  end.

Fixpoint all_wired (use_storyboard : bool) (user_prompt : pystr)
    (num_scenes scene_duration : pyval) (h : list event) : Prop :=
  match h with
  | [] => True
  | Invoked c recorded _ :: h' =>
      wired use_storyboard user_prompt num_scenes scene_duration c recorded
      /\ all_wired use_storyboard user_prompt num_scenes scene_duration h'
  | _ :: h' => all_wired use_storyboard user_prompt num_scenes scene_duration h'
  end.

(** What [_print_summary] reads out of the stage map: the title of the
    script and the number of scenes. *)
Definition summary_reads (stp : list (pystr * pyval)) : outcome nat :=
  obind (py_getitem (PDict stp) (lit "script")) (fun s =>
  obind (py_getitem s (lit "title")) (fun _ =>
  obind (py_getitem (PDict stp) (lit "scenes")) (fun sc =>
  obind (py_getitem sc (lit "scenes")) (fun l => py_len l)))).

(** What lines 151 to 154 of [run] evaluate to, given the timestamp of
    the project. *)
Definition chosen_name (w : World) (script_data : pyval)
    (output_filename : option pystr) (ts : pystr) : outcome pystr :=
  let derived :=
    obind (py_getitem script_data (lit "title")) (fun title =>
      Filename.derive_output_filename (unicode_isalnum w) title ts) in
  match output_filename with
  | Some f => if negb (truthy (PStr f)) then derived else Ok f
  | None => derived
  end.

(** The part of a derived file name that comes from the title. *)
Definition stem (uni : codepoint -> bool) (title : pystr) : pystr :=
  firstn 50
    (map Filename.space_to_underscore (filter (Filename.allowed uni) title)).

(** An exception of [generate] that comes from outside: from the upstream
    call, or from the decoder on the stripped content of the first
    choice. *)
Definition from_upstream (up : ScriptGenerator.Upstream) (user_prompt : pystr)
    (e : exn) : Prop :=
  ScriptGenerator.create up user_prompt = Raise e
  \/ exists content rest,
       ScriptGenerator.create up user_prompt = Ok (Some content :: rest)
       /\ ScriptGenerator.json_loads up (strip content) = Raise e.

(** The [__main__] block of [pipeline.py], lines 214 to 217: the line it
    prints for a result; a key the result lacks is a [KeyError]. *)
Definition report (r : RunResult) : outcome (list fpart) :=
  if success r then
    match video_path r with
    | Some v => Ok [FLit "✅ Video created: "; FVal v]
    | None => Raise (mkExn KeyError (lit "'video_path'"))
    end
  else
    match error r with
    | Some m => Ok [FLit "❌ Failed: "; FVal (PStr m)]
    | None => Raise (mkExn KeyError (lit "'error'"))
    end.

End Observations.

(* ================================================================== *)
(** ** Code that calls its collaborators one after the other and records
    nothing else: a history of calls and exceptions *)

Module Tracing.
Import Py.

Section Monad.
Variables C R : Type.

Definition T (A : Type) : Type :=
  list (C * outcome R) -> outcome A * list (C * outcome R).

Definition ret {A} (a : A) : T A := fun h => (Ok a, h).
Definition raise {A} (e : exn) : T A := fun h => (Raise e, h).

Definition bind {A B} (m : T A) (k : A -> T B) : T B :=
  fun h => match m h with
           | (Ok a, h') => k a h'
           | (Raise e, h') => (Raise e, h')
           end.

(** A call of a collaborator. *)
Definition ask (respond : C -> outcome R) (c : C) : T R :=
  fun h => let r := respond c in (r, h ++ [(c, r)]).
End Monad.

End Tracing.

(* ================================================================== *)
(** ** [ScriptGenerator.__init__] and [VideoPipeline.__init__] *)

Module Construction.
Import Py Tracing.

Notation "x <- m ;; k" := (bind m (fun x => k))
  (at level 61, m at next level, right associativity).
Notation "m ;;; k" := (bind m (fun _ => k))
  (at level 61, right associativity).

(** The components [VideoPipeline.__init__] builds besides the script
    generator; their classes are not part of these files. *)
Inductive component : Type :=
| ScenePlannerC | StoryboardGeneratorC | VideoGeneratorC | AudioGeneratorC
| VideoAssemblerC.

Inductive init_call : Type :=
| EnsureDirectories                       (* [config.ensure_directories()] *)
| NewOpenAIClient (api_key : pyval)       (* [OpenAI(api_key=...)] *)
| New (c : component) (args : list pyval).

Record InitWorld : Type := {
  (** [config.OPENAI_API_KEY] *)
  OPENAI_API_KEY : pyval;
  (** [config.USE_STORYBOARD] *)
  USE_STORYBOARD : bool;
  init_respond : init_call -> outcome unit
}.

(** A [ScriptGenerator] object: its key. *)
Record script_generator : Type := { sg_api_key : pyval }.

(** A [VideoPipeline] object, as far as [run] reads it. *)
Record video_pipeline : Type := {
  vp_script_gen : script_generator;
  vp_use_storyboard : bool
}.

Section Init.
Variable iw : InitWorld.

(** [ScriptGenerator.__init__], lines 17 to 21 of
    [script_generator.py]. *)
Definition ScriptGenerator_init (api_key : pyval)
  : T init_call unit script_generator :=
  let key := py_or api_key (OPENAI_API_KEY iw) in
  if negb (truthy key)
  then raise (mkExn ValueError (lit "OpenAI API key is required"))
  else ask (init_respond iw) (NewOpenAIClient key) ;;;
       ret {| sg_api_key := key |}.

(** [VideoPipeline.__init__], lines 47 to 57 of [pipeline.py]; the
    [video_provider] argument is not read. *)
Definition VideoPipeline_init (openai_api_key video_api_key tts_api_key
    video_provider tts_provider : pyval) (use_storyboard : option bool)
    (svd_model sdxl_model : pyval) : T init_call unit video_pipeline :=
  ask (init_respond iw) EnsureDirectories ;;;
  script_gen <- ScriptGenerator_init openai_api_key ;;
  ask (init_respond iw) (New ScenePlannerC [openai_api_key]) ;;;
  ask (init_respond iw) (New StoryboardGeneratorC [video_api_key]) ;;;
  ask (init_respond iw)
    (New VideoGeneratorC [video_api_key; svd_model; sdxl_model]) ;;;
  ask (init_respond iw) (New AudioGeneratorC [tts_api_key; tts_provider]) ;;;
  ask (init_respond iw) (New VideoAssemblerC []) ;;;
  ret {| vp_script_gen := script_gen;
         vp_use_storyboard :=
           Pipeline.init_use_storyboard use_storyboard (USE_STORYBOARD iw) |}.
End Init.

(** The components built, in order. *)
Fixpoint built (h : list (init_call * outcome unit)) : list component :=
  match h with
  | [] => []
  | (New c _, Ok _) :: h' => c :: built h'
  | _ :: h' => built h'
  end.

(** The keys handed to the OpenAI client. *)
Fixpoint client_keys (h : list (init_call * outcome unit)) : list pyval :=
  match h with
  | [] => []
  | (NewOpenAIClient k, _) :: h' => k :: client_keys h'
  | _ :: h' => client_keys h'
  end.

(** A world for the examples: nothing fails. *)
Definition easy_world (key : pyval) : InitWorld :=
  {| OPENAI_API_KEY := key; USE_STORYBOARD := true;
     init_respond := fun _ => Ok tt |}.

End Construction.

(* ================================================================== *)
(** ** [src/INTEGRATION_GUIDE.py]: the two pipelines of options 2 and 3 *)

Module Guide.
Import Py Tracing.

Notation "x <- m ;; k" := (bind m (fun x => k))
  (at level 61, m at next level, right associativity).
Notation "m ;;; k" := (bind m (fun _ => k))
  (at level 61, right associativity).

(** What the two functions call: the constructors and methods of the
    stage classes, and [print]. *)
Inductive guide_call : Type :=
| NewScriptGenerator
| Generate (user_prompt : pyval)
| NewScenePlanner
| CreatePlan (script : pyval)
| NewCinematicEnhancer
| EnhanceScenePlan (scene_plan user_prompt : pyval)
| NewStoryboardGenerator
| StoryboardGenerate (scene_plan : pyval)
| NewVideoGenerator
| GenerateClips (scene_plan storyboard_images : pyval)
| Print (text : list Pipeline.fpart).

Definition is_print (c : guide_call) : bool :=
  match c with Print _ => true | _ => false end.

Definition is_enhancer (c : guide_call) : bool :=
  match c with
  | NewCinematicEnhancer | EnhanceScenePlan _ _ => true
  | _ => false
  end.

Definition history : Type := list (guide_call * outcome pyval).

Section Functions.
Variable respond : guide_call -> outcome pyval.

Definition ask := Tracing.ask respond.

(** [generate_video_pipeline], lines 73 to 95. *)
Definition generate_video_pipeline (user_prompt : pyval)
  : T guide_call pyval pyval :=
  (* Step 1: Generate script *)
  ask NewScriptGenerator ;;;
  script <- ask (Generate user_prompt) ;;
  (* Step 2: Create scene plan *)
  ask NewScenePlanner ;;;
  scene_plan <- ask (CreatePlan script) ;;
  (* Step 3: ENHANCE WITH CINEMATICS *)
  ask NewCinematicEnhancer ;;;
  scene_plan <- ask (EnhanceScenePlan scene_plan user_prompt) ;;
  ask (Print [Pipeline.FLit "✅ Applied cinematic enhancement to all scenes"]) ;;;
  (* Step 4: Generate storyboard images *)
  ask NewStoryboardGenerator ;;;
  images <- ask (StoryboardGenerate scene_plan) ;;
  (* Step 5: Generate video clips *)
  ask NewVideoGenerator ;;;
  clips <- ask (GenerateClips scene_plan images) ;;
  ret clips.

(** [generate_video_pipeline_with_option], lines 103 to 131. *)
Definition generate_video_pipeline_with_option (user_prompt : pyval)
    (use_cinematic : bool) (cinematic_intensity : pyval)
  : T guide_call pyval pyval :=
  ask NewScriptGenerator ;;;
  script <- ask (Generate user_prompt) ;;
  ask NewScenePlanner ;;;
  scene_plan <- ask (CreatePlan script) ;;
  (* Optional cinematic enhancement *)
  scene_plan <-
    (if use_cinematic then
       ask (Print [Pipeline.FLit "🎥 Applying cinematic enhancement (intensity: ";
                   Pipeline.FVal cinematic_intensity; Pipeline.FLit ")..."]) ;;;
       ask NewCinematicEnhancer ;;;
       scene_plan <- ask (EnhanceScenePlan scene_plan user_prompt) ;;
       ask (Print [Pipeline.FLit "✅ Cinematic prompting applied"]) ;;;
       ret scene_plan
     else
       ask (Print [Pipeline.FLit "ℹ️  Using standard visual descriptions"]) ;;;
       ret scene_plan) ;;
  ask NewStoryboardGenerator ;;;
  images <- ask (StoryboardGenerate scene_plan) ;;
  ask NewVideoGenerator ;;;
  clips <- ask (GenerateClips scene_plan images) ;;
  ret clips.
End Functions.

(** The calls of a history other than [print], with how they ended. *)
Definition collaborator_calls (h : history) : history :=
  filter (fun ev => negb (is_print (fst ev))) h.

(** Every call of the history returned. *)
Definition all_returned (h : history) : Prop :=
  Forall (fun ev => exists v, snd ev = Ok v) h.

(** A world for the examples: each call returns a value that names
    it. *)
Definition echo (c : guide_call) : outcome pyval :=
  match c with
  | Generate _ => Ok (PStr (lit "script"))
  | CreatePlan _ => Ok (PStr (lit "plan"))
  | EnhanceScenePlan _ _ => Ok (PStr (lit "enhanced plan"))
  | StoryboardGenerate _ => Ok (PStr (lit "images"))
  | GenerateClips _ _ => Ok (PStr (lit "clips"))
  | _ => Ok PNone
  end.

(** The same world with a scene planner that fails. *)
Definition planner_down (c : guide_call) : outcome pyval :=
  match c with
  | CreatePlan _ => Raise (mkExn RuntimeError (lit "Scene planning failed"))
  | _ => echo c
  end.

End Guide.

(* ================================================================== *)
(** ** More concrete surroundings *)

Module Examples2.
Import Py Pipeline Examples.

(** A scene planner that returns a plan without its scenes. *)
Definition plan_without_scenes : pyval := PDict [(lit "title", PStr (lit "plan"))].

Definition world_plan_without_scenes : World :=
  {| transform := fun c =>
       match c with
       | CallScenes _ _ _ => Ok plan_without_scenes
       | _ => transform good_world c
       end;
     write_json := fun _ _ => Ok tt;
     unicode_isalnum := fun _ => false;
     OUTPUT_DIR := lit "output" |}.

(** An audio generator that returns a number where a path is due. *)
Definition world_audio_not_a_path : World :=
  {| transform := fun c =>
       match c with
       | CallAudio _ => Ok (PInt 7)
       | _ => transform good_world c
       end;
     write_json := fun _ _ => Ok tt;
     unicode_isalnum := fun _ => false;
     OUTPUT_DIR := lit "output" |}.

(** A script whose title is a number. *)
Definition script_numeric_title : pyval :=
  PDict [(lit "title", PInt 2024); (lit "script", PStr (lit "Happy new year."))].

Definition world_numeric_title : World :=
  {| transform := fun c =>
       match c with
       | CallScript _ => Ok script_numeric_title
       | _ => transform good_world c
       end;
     write_json := fun _ _ => Ok tt;
     unicode_isalnum := fun _ => false;
     OUTPUT_DIR := lit "output" |}.

(** The user interrupts the video generator. *)
Definition interrupted : exn := mkExn (NonException "KeyboardInterrupt") [].

Definition world_interrupted : World :=
  world (upstream_answering (json_text doc_rainbows))
    (failing_at Clips interrupted) (Ok tt).

(** The runs of the further examples: storyboards disabled, no output
    file name, no scene count or duration. *)
Definition run_of (w : World) (cb : option callback)
  : outcome RunResult * state :=
  run w false prompt_rainbows None PNone PNone cb now_sample.

(** A model whose reply decodes to the list ["title", "script"], which
    passes both membership tests of [generate]. *)
Definition upstream_list_reply : ScriptGenerator.Upstream :=
  {| ScriptGenerator.create := fun _ => Ok [Some (lit "[]")];
     ScriptGenerator.json_loads :=
       fun _ => Ok (PList [PStr (lit "title"); PStr (lit "script")]) |}.

(** A model that answers without any choice. *)
Definition upstream_no_choices : ScriptGenerator.Upstream :=
  {| ScriptGenerator.create := fun _ => Ok [];
     ScriptGenerator.json_loads := json_loads_table |}.

End Examples2.

(* ================================================================== *)
(** ** Facts about the Python fragment *)

Module PyFacts.
Import Py.

Lemma str_eqb_eq (a b : pystr) : str_eqb a b = true <-> a = b.
Proof.
  revert b. induction a as [|x a IH]; intros [|y b]; simpl;
    try (split; [discriminate | congruence]); try tauto.
  rewrite andb_true_iff, N.eqb_eq, IH. split.
  - intros [-> ->]. reflexivity.
  - intros H. injection H as -> ->. auto.
Qed.

Lemma str_eqb_refl (a : pystr) : str_eqb a a = true.
Proof. apply str_eqb_eq. reflexivity. Qed.

Lemma str_eqb_single (c d : codepoint) : str_eqb [c] [d] = (c =? d)%N.
Proof. simpl. apply andb_true_r. Qed.

Lemma str_isalnum_single uni (c : codepoint) :
  str_isalnum uni [c] = isalnum uni c.
Proof. simpl. apply andb_true_r. Qed.

Lemma dict_lookup_some_in k d v :
  dict_lookup k d = Some v -> In (k, v) d.
Proof.
  induction d as [|[k' v'] d IH]; simpl; [discriminate|].
  destruct (str_eqb k k') eqn:E.
  - apply str_eqb_eq in E. intros H. injection H as ->. subst. auto.
  - auto.
Qed.

(** [k in x] holds of a dictionary exactly when [x[k]] is defined. *)
Lemma contains_dict_getitem k d :
  py_contains k (PDict d) = Ok true -> exists v, py_getitem (PDict d) k = Ok v.
Proof.
  simpl. destruct (dict_lookup k d) as [v|]; [eauto | discriminate].
Qed.

(** Subscripting by a string succeeds on dictionaries only. *)
Lemma getitem_ok_dict v k x :
  py_getitem v k = Ok x -> exists d, v = PDict d /\ dict_lookup k d = Some x.
Proof.
  destruct v; simpl; try discriminate.
  destruct (dict_lookup k d) eqn:E; [|discriminate].
  intros H. injection H as ->. eauto.
Qed.

End PyFacts.

(* ================================================================== *)
(** ** The derivation of the output file name *)

Module FilenameFacts.
Import Py Filename PyFacts.

Section Facts.
Variable uni : codepoint -> bool.

Lemma in_separators_single (c : codepoint) :
  in_separators [c] = ((c =? SPACE) || (c =? HYPHEN) || (c =? UNDERSCORE))%N.
Proof. unfold in_separators. rewrite !str_eqb_single. reflexivity. Qed.

(** Over the characters of a string, the generator expression is a
    filter. *)
Lemma join_safe_chars (title : pystr) :
  join_safe uni (map (fun c => PStr [c]) title) = Ok (filter (allowed uni) title).
Proof.
  induction title as [|c title IH]; simpl; [reflexivity|].
  rewrite IH. unfold bind.
  change (match title with [] => true | _ => true end)
    with true.
  fold (str_eqb [c]). 
  assert (K : (isalnum uni c && true || in_separators [c]) = allowed uni c).
  { rewrite andb_true_r, in_separators_single. unfold allowed.
    rewrite !orb_assoc. reflexivity. }
  rewrite K. destruct (allowed uni c); reflexivity.
Qed.

Lemma derive_on_string (title timestamp : pystr) :
  derive_output_filename uni (PStr title) timestamp
  = Ok (spec_output_filename uni title timestamp).
Proof.
  unfold derive_output_filename, spec_output_filename. simpl py_iter.
  unfold bind at 1. rewrite join_safe_chars. reflexivity.
Qed.

(** The part before the timestamp has at most 50 characters, none of
    them outside the alphanumeric characters, the hyphen and the
    underscore. *)
Lemma sanitized_part (title : pystr) :
  let part := firstn 50 (map space_to_underscore (filter (allowed uni) title)) in
  List.length part <= 50
  /\ Forall (fun c => isalnum uni c = true \/ c = HYPHEN \/ c = UNDERSCORE) part.
Proof.
  split.
  - apply firstn_le_length.
  - apply Forall_forall. intros c Hc.
    assert (Hin : In c (map space_to_underscore (filter (allowed uni) title))).
    { rewrite <- (firstn_skipn 50). apply in_or_app. auto. }
    apply in_map_iff in Hin. destruct Hin as [c0 [<- Hc0]].
    apply filter_In in Hc0. destruct Hc0 as [_ Hal].
    unfold allowed in Hal. unfold space_to_underscore.
    destruct (N.eqb_spec c0 SPACE) as [->|Hsp]; [auto|].
    rewrite !orb_true_iff, !N.eqb_eq in Hal.
    destruct Hal as [[[Hal | Hal] | Hal] | Hal]; auto; discriminate.
Qed.
End Facts.

End FilenameFacts.

(* ================================================================== *)
(** ** The script generator *)

Module ScriptGeneratorFacts.
Import Py ScriptGenerator PyFacts.

Section Facts.
Variable up : Upstream.

(** The handler re-raises whatever reaches it. *)
Lemma handler_raises (e : exn) :
  exists e', generate_handler e = Raise e'.
Proof.
  unfold generate_handler.
  destruct (is_JSONDecodeError e); [eauto|].
  destruct (is_Exception e); eauto.
Qed.

Lemma generate_ok_body (user_prompt : pystr) (v : pyval) :
  generate up user_prompt = Ok v -> generate_body up user_prompt = Ok v.
Proof.
  unfold generate, try_except.
  destruct (generate_body up user_prompt) as [a|e]; [auto|].
  destruct (handler_raises e) as [e' ->]. discriminate.
Qed.

(** What [generate] returns went through the whole body: it is the
    first choice of the upstream answer, stripped and decoded, both
    membership tests hold of it and it can be subscripted by
    ["title"]. *)
Lemma generate_ok_inv (user_prompt : pystr) (v : pyval) :
  generate up user_prompt = Ok v ->
  exists content rest,
    create up user_prompt = Ok (Some content :: rest)
    /\ json_loads up (strip content) = Ok v
    /\ py_contains (lit "title") v = Ok true
    /\ py_contains (lit "script") v = Ok true
    /\ exists t, py_getitem v (lit "title") = Ok t.
Proof.
  intros H. apply generate_ok_body in H. unfold generate_body, bind in H.
  destruct (create up user_prompt) as [choices|] eqn:Hc; [|discriminate].
  destruct choices as [|[content|] rest]; simpl in H; try discriminate.
  destruct (json_loads up (strip content)) as [sd|] eqn:Hj; [|discriminate].
  destruct (py_contains (lit "title") sd) as [[|]|] eqn:Ht;
    simpl in H; try discriminate.
  destruct (py_contains (lit "script") sd) as [[|]|] eqn:Hs;
    simpl in H; try discriminate.
  destruct (py_getitem sd (lit "title")) as [t|] eqn:Hg; [|discriminate].
  injection H as <-. exists content, rest. eauto 10.
Qed.

(** A successful return is a dictionary holding both keys. *)
Lemma generate_ok_has_keys (user_prompt : pystr) (v : pyval) :
  generate up user_prompt = Ok v ->
  exists d t s, v = PDict d
    /\ dict_lookup (lit "title") d = Some t
    /\ dict_lookup (lit "script") d = Some s.
Proof.
  intros H. apply generate_ok_inv in H.
  destruct H as (content & rest & _ & _ & _ & Hs & t & Ht).
  apply getitem_ok_dict in Ht. destruct Ht as (d & -> & Ht).
  apply contains_dict_getitem in Hs. destruct Hs as (s & Hs).
  apply getitem_ok_dict in Hs. destruct Hs as (d' & Hd & Hs).
  injection Hd as <-. eauto 10.
Qed.

(** A reply that is not JSON ends in a [ValueError]. *)
Lemma malformed_json_raises_ValueError user_prompt content rest e :
  create up user_prompt = Ok (Some content :: rest) ->
  json_loads up (strip content) = Raise e ->
  is_JSONDecodeError e = true ->
  generate up user_prompt
  = Raise (mkExn ValueError
             (lit "Failed to parse script response: " ++ exn_str e)).
Proof.
  intros Hc Hj He. unfold generate, generate_body, bind, try_except.
  rewrite Hc. simpl. rewrite Hj. unfold generate_handler. rewrite He.
  reflexivity.
Qed.

(** A JSON object that lacks one of the two keys ends in a
    [RuntimeError]: the [ValueError] raised by the validation is caught
    by the last [except] clause of the same [try] statement. *)
Lemma missing_field_raises_RuntimeError user_prompt content rest d :
  create up user_prompt = Ok (Some content :: rest) ->
  json_loads up (strip content) = Ok (PDict d) ->
  dict_lookup (lit "title") d = None \/ dict_lookup (lit "script") d = None ->
  generate up user_prompt
  = Raise (mkExn RuntimeError
             (lit "Script generation failed: Invalid script structure returned")).
Proof.
  intros Hc Hj Hmiss. unfold generate, generate_body, bind, try_except.
  rewrite Hc. simpl first_item. cbv iota. simpl content_strip. cbv iota.
  rewrite Hj. cbv iota beta. unfold py_contains.
  destruct (dict_lookup (lit "title") d) as [t|] eqn:Ht.
  - destruct Hmiss as [Hm|Hm]; [discriminate|]. rewrite Hm. reflexivity.
  - reflexivity.
Qed.
End Facts.

End ScriptGeneratorFacts.

(* ================================================================== *)
(** ** The orchestrator *)

Module PipelineFacts.
Import Py Pipeline PyFacts.

(** *** Rules for [wp], one for each operation [run] is made of *)

Section Rules.
Variable w : World.
Variable use_storyboard : bool.

Lemma wp_bind A B (m : M A) (k : A -> M B) Q E st :
  wp m (fun a st' => wp (k a) Q E st') E st -> wp (bind m k) Q E st.
Proof. unfold wp, bind. destruct (m st) as [[a|e] st']; auto. Qed.

Lemma wp_ret A (a : A) (Q : A -> state -> Prop) E st :
  Q a st -> wp (ret a) Q E st.
Proof. auto. Qed.

Lemma wp_get_project (Q : project -> state -> Prop) E p h :
  Q p (mkState p h) -> wp get_project Q E (mkState p h).
Proof. auto. Qed.

Lemma wp_record k v (Q : unit -> state -> Prop) E pr ts stp h :
  Q tt (mkState (mkProject pr ts (dict_set k v stp)) h) ->
  wp (record_step k v) Q E (mkState (mkProject pr ts stp) h).
Proof. auto. Qed.

Lemma wp_call c (Q : pyval -> state -> Prop) (E : exn -> state -> Prop)
    pr ts stp h :
  (forall v, transform w c = Ok v ->
     Q v (mkState (mkProject pr ts stp) (h ++ [Invoked c stp (Ok v)]))) ->
  (forall e, transform w c = Raise e ->
     E e (mkState (mkProject pr ts stp) (h ++ [Invoked c stp (Raise e)]))) ->
  wp (call w c) Q E (mkState (mkProject pr ts stp) h).
Proof.
  intros HQ HE. unfold wp, call. cbn.
  destruct (transform w c); auto.
Qed.

Lemma wp_notify_none i l d (Q : unit -> state -> Prop) E st :
  Q tt st -> wp (notify None i l d) Q E st.
Proof. auto. Qed.

(** A notification whose detail is a constant. *)
Lemma wp_notify_lit f i l dt (Q : unit -> state -> Prop)
    (E : exn -> state -> Prop) p h :
  let n := mkNotification i 6 l dt in
  (f n = Ok tt -> Q tt (mkState p (h ++ [Notified n (Ok tt)]))) ->
  (forall e, f n = Raise e -> E e (mkState p (h ++ [Notified n (Raise e)]))) ->
  wp (notify (Some f) i l (Ok dt)) Q E (mkState p h).
Proof.
  intros n HQ HE. unfold wp, notify, bind, eval. cbn. fold n.
  destruct (f n) as [[]|e]; auto.
Qed.

(** A notification whose detail is computed: the computation may raise
    before the callback is called. *)
Lemma wp_notify f i l d (Q : unit -> state -> Prop)
    (E : exn -> state -> Prop) p h :
  (forall e, d = Raise e -> E e (mkState p h)) ->
  (forall dt, d = Ok dt -> f (mkNotification i 6 l dt) = Ok tt ->
     Q tt (mkState p (h ++ [Notified (mkNotification i 6 l dt) (Ok tt)]))) ->
  (forall dt e, d = Ok dt -> f (mkNotification i 6 l dt) = Raise e ->
     E e (mkState p (h ++ [Notified (mkNotification i 6 l dt) (Raise e)]))) ->
  wp (notify (Some f) i l d) Q E (mkState p h).
Proof.
  intros H1 H2 H3. destruct d as [dt|e].
  - apply wp_notify_lit; cbv zeta; eauto.
  - unfold wp, notify, bind, eval. cbn. auto.
Qed.

Lemma wp_save (Q : unit -> state -> Prop) (E : exn -> state -> Prop)
    pr ts stp h :
  let p := mkProject pr ts stp in
  let mp := PathJoin (OUTPUT_DIR w) (lit "project_" ++ ts ++ lit ".json") in
  (write_json w mp p = Ok tt -> Q tt (mkState p (h ++ [Saved mp p (Ok tt)]))) ->
  (forall e, write_json w mp p = Raise e ->
     E e (mkState p (h ++ [Saved mp p (Raise e)]))) ->
  wp (_save_metadata w) Q E (mkState p h).
Proof.
  intros p mp HQ HE. unfold wp, _save_metadata, bind, get_project. cbn.
  change (PathJoin _ _) with mp. change (mkProject pr ts stp) with p.
  destruct (write_json w mp p) as [[]|e]; [apply HQ | apply HE]; reflexivity.
Qed.

(** The summary changes nothing; it can only raise. *)
Lemma wp_print_summary v (Q : unit -> state -> Prop)
    (E : exn -> state -> Prop) st :
  Q tt st -> (forall e, E e st) -> wp (_print_summary v) Q E st.
Proof.
  intros HQ HE. unfold wp, _print_summary, bind, get_project, eval, ret.
  repeat match goal with
         | |- context [match ?o with Ok _ => _ | Raise _ => _ end] =>
             destruct o; auto
         end.
Qed.

(** The file name is the caller's when it is a non-empty string, and
    else the one derived from [script_data['title']] and the timestamp
    of the project; nothing is changed. *)
Lemma wp_choose_output_filename sd fname (Q : pystr -> state -> Prop)
    (E : exn -> state -> Prop) pr ts stp h :
  (forall name,
     match fname with
     | Some (c :: f) => name = c :: f
     | _ => exists title,
              py_getitem sd (lit "title") = Ok title
              /\ Filename.derive_output_filename (unicode_isalnum w) title ts
                 = Ok name
     end -> Q name (mkState (mkProject pr ts stp) h)) ->
  (forall e, E e (mkState (mkProject pr ts stp) h)) ->
  wp (choose_output_filename w sd fname) Q E (mkState (mkProject pr ts stp) h).
Proof.
  intros HQ HE.
  assert (D : (forall name,
                 (exists title,
                    py_getitem sd (lit "title") = Ok title
                    /\ Filename.derive_output_filename (unicode_isalnum w)
                         title ts = Ok name) ->
                 Q name (mkState (mkProject pr ts stp) h)) ->
              wp (derive_from_title w sd) Q E (mkState (mkProject pr ts stp) h)).
  { intros HD.
    cbv [wp derive_from_title bind get_project eval current_project timestamp].
    destruct (py_getitem sd (lit "title")) as [title|] eqn:Hg; auto.
    destruct (Filename.derive_output_filename (unicode_isalnum w) title ts)
      as [name|] eqn:Hd; auto.
    apply HD. exists title. auto. }
  unfold choose_output_filename. destruct fname as [[|c f]|].
  - cbn. apply D. intros name Hn. apply HQ. exact Hn.
  - cbn. apply (HQ (c :: f)). reflexivity.
  - apply D. intros name Hn. apply HQ. exact Hn.
Qed.

Lemma final_handled Phi e st :
  (is_Exception e = true ->
   final Phi (Ok (mkRunResult false None None None (current_project st)
                    (Some (exn_str e))), st)) ->
  (is_Exception e = false -> final Phi (Raise e, st)) ->
  final Phi (handled e st).
Proof. unfold handled. destruct (is_Exception e); auto. Qed.

(** A property holds of the way [run] ends when it holds where the
    body returns and where the handler takes over. *)
Lemma wp_run (Phi : outcome RunResult * state -> Prop)
    user_prompt fname ns sd cb now :
  wp (run_body w use_storyboard user_prompt fname ns sd cb)
     (fun r st => final Phi (Ok r, st))
     (fun e st => final Phi (handled e st))
     (mkState (mkProject user_prompt now []) []) ->
  Phi (run w use_storyboard user_prompt fname ns sd cb now).
Proof.
  unfold wp, run, try_except_Exception, handled, run_handler, bind,
    get_project, ret, final.
  destruct (run_body _ _ _ _ _ _ _ _) as [[r|e] st']; auto.
Qed.
End Rules.

(** One step of the walk along the body of [run]. *)
Ltac wp_head :=
  lazymatch goal with
  | |- wp (bind _ _) _ _ _ => apply wp_bind
  | |- wp (ret _) _ _ _ => apply wp_ret
  | |- wp get_project _ _ _ => apply wp_get_project
  | |- wp (record_step _ _) _ _ _ => apply wp_record
  | |- wp (notify None _ _ _) _ _ _ => apply wp_notify_none
  | |- wp (notify (Some _) _ _ (Ok _)) _ _ _ =>
      apply wp_notify_lit; cbv zeta; [intros ? | intros ? ?]
  | |- wp (notify (Some _) _ _ _) _ _ _ =>
      apply wp_notify; [intros ? ? | intros ? ? ? | intros ? ? ? ?]
  | |- wp (call _ _) _ _ _ => apply wp_call; [intros ? ? | intros ? ?]
  | |- wp (_save_metadata _) _ _ _ =>
      apply wp_save; cbv zeta; [intros ? | intros ? ?]
  | |- wp (_print_summary _) _ _ _ => apply wp_print_summary; [ | intros ?]
  | |- wp (choose_output_filename _ _ _) _ _ _ =>
      apply wp_choose_output_filename; [intros ? ? | intros ?]
  | |- wp (if ?b then _ else _) _ _ _ => destruct b eqn:?
  end; cbv beta.

(** The walk: every way the body can end becomes a goal [final _ _]. *)
Ltac wp_walk :=
  repeat (lazymatch goal with
          | |- final _ (handled _ _) => apply final_handled; intros ?
          | |- final _ _ => fail
          | |- _ => wp_head
          end).

Ltac start_walk :=
  apply wp_run; unfold run_body; wp_walk; unfold final; cbn [fst snd].

(** C4. A run that returns success has its video path set, no error, and
    a stage map whose keys are the six stage keys in order, the storyboard
    key being absent exactly when storyboard generation is disabled. *)
Theorem success_result_complete w use_storyboard user_prompt fname ns sd cb
    now r :
  fst (run w use_storyboard user_prompt fname ns sd cb now) = Ok r ->
  success r = true ->
  (exists v, video_path r = Some v)
  /\ error r = None
  /\ dict_keys (steps (project_data r))
     = map stage_key (stage_sequence use_storyboard)
  /\ (~ In (stage_key Storyboard) (dict_keys (steps (project_data r)))
      <-> use_storyboard = false).
Proof.
  revert r.
  change ((fun x => forall r, fst x = Ok r -> success r = true ->
    (exists v, video_path r = Some v)
    /\ error r = None
    /\ dict_keys (steps (project_data r))
       = map stage_key (stage_sequence use_storyboard)
    /\ (~ In (stage_key Storyboard) (dict_keys (steps (project_data r)))
        <-> use_storyboard = false))
    (run w use_storyboard user_prompt fname ns sd cb now)).
  destruct cb as [f|]; destruct use_storyboard; start_walk.
  all: intros r Hr; try discriminate Hr; injection Hr as <-;
    cbn [success]; intros Hs; try discriminate Hs.
  all: cbn; repeat split; eauto; try discriminate.
  all: try (intros Hn; exfalso; apply Hn; vm_compute; tauto).
  all: intros _ Hin; vm_compute in Hin; intuition discriminate.
Qed.

Ltac ends_with_leaf :=
  unfold ends_with; cbn [fst snd success error video_path project_data
                         current_project]; auto 10.

(** C1, as the code has it.  When a stage transform raises, no metadata
    write is attempted; the run ends with the failure result of that
    exception, and the stage map it returns holds exactly the outputs of
    the stages that completed before the failure. *)
Theorem stage_failure_skips_persistence w use_storyboard user_prompt fname
    ns sd cb now s e :
  let x := run w use_storyboard user_prompt fname ns sd cb now in
  In (s, e) (raised_stages (history (snd x))) ->
  metadata_writes (history (snd x)) = []
  /\ steps (current_project (snd x)) = completed (history (snd x))
  /\ ends_with e x.
Proof.
  cbv zeta.
  change ((fun x => In (s, e) (raised_stages (history (snd x))) ->
    metadata_writes (history (snd x)) = []
    /\ steps (current_project (snd x)) = completed (history (snd x))
    /\ ends_with e x)
    (run w use_storyboard user_prompt fname ns sd cb now)).
  destruct cb as [f|]; destruct use_storyboard; start_walk.
  all: intros Hin; vm_compute in Hin; try contradiction.
  all: destruct Hin as [Hin|[]]; injection Hin as <- <-.
  all: split; [reflexivity | split; [reflexivity | ends_with_leaf]].
Qed.

(** C2, as the code has it.  The metadata write is attempted only after
    every stage of the sequence has returned; when it raises, the run ends
    with the failure result of that exception, although the stage map
    holds every stage, the final video included. *)
Theorem persistence_failure_fails_run w use_storyboard user_prompt fname
    ns sd cb now snapshot e :
  let x := run w use_storyboard user_prompt fname ns sd cb now in
  In (snapshot, Raise e) (metadata_writes (history (snd x))) ->
  raised_stages (history (snd x)) = []
  /\ map fst (completed (history (snd x)))
     = map stage_key (stage_sequence use_storyboard)
  /\ steps snapshot = completed (history (snd x))
  /\ snapshot = current_project (snd x)
  /\ ends_with e x.
Proof.
  cbv zeta.
  change ((fun x => In (snapshot, Raise e) (metadata_writes (history (snd x))) ->
    raised_stages (history (snd x)) = []
    /\ map fst (completed (history (snd x)))
       = map stage_key (stage_sequence use_storyboard)
    /\ steps snapshot = completed (history (snd x))
    /\ snapshot = current_project (snd x)
    /\ ends_with e x)
    (run w use_storyboard user_prompt fname ns sd cb now)).
  destruct cb as [f|]; destruct use_storyboard; start_walk.
  all: intros Hin; cbn in Hin; try contradiction.
  all: destruct Hin as [Hin|[]]; try discriminate Hin; injection Hin as <- <-.
  all: repeat (split; [reflexivity|]); ends_with_leaf.
Qed.

(** C3, as the code has it.  An exception raised by the progress callback
    is the last thing that happens in the run: no stage transform, no
    notification and no metadata write follows it, and the run ends with
    the failure result of that exception and the stages completed so
    far. *)
Theorem callback_exception_aborts_run w use_storyboard user_prompt fname
    ns sd cb now n e :
  let x := run w use_storyboard user_prompt fname ns sd cb now in
  In (n, e) (callback_raises (history (snd x))) ->
  (exists h, history (snd x) = h ++ [Notified n (Raise e)])
  /\ steps (current_project (snd x)) = completed (history (snd x))
  /\ ends_with e x.
Proof.
  cbv zeta.
  change ((fun x => In (n, e) (callback_raises (history (snd x))) ->
    (exists h, history (snd x) = h ++ [Notified n (Raise e)])
    /\ steps (current_project (snd x)) = completed (history (snd x))
    /\ ends_with e x)
    (run w use_storyboard user_prompt fname ns sd cb now)).
  destruct cb as [f|]; destruct use_storyboard; start_walk.
  all: intros Hin; cbn in Hin; try contradiction.
  all: destruct Hin as [Hin|[]]; injection Hin as <- <-.
  all: split; [eexists; reflexivity | split; [reflexivity | ends_with_leaf]].
Qed.

Ltac prefix_at k :=
  exists k; split; [vm_compute; repeat constructor | reflexivity].

Ltac find_prefix :=
  first [ prefix_at 0 | prefix_at 1 | prefix_at 2 | prefix_at 3
        | prefix_at 4 | prefix_at 5 | prefix_at 6 ].

(** C5, as the code has it.  A run that returns failure carries an error
    string (the message of the exception that ended it, whatever its
    length) and no video path; its stage map holds the outputs of the
    stages that completed, which form a prefix of the executed sequence.
    When a stage transform raised, the error is the message of its
    exception and the prefix stops just before that stage. *)
Theorem failure_result_prefix w use_storyboard user_prompt fname ns sd cb
    now r :
  let x := run w use_storyboard user_prompt fname ns sd cb now in
  fst x = Ok r -> success r = false ->
  (exists m, error r = Some m)
  /\ video_path r = None
  /\ steps (project_data r) = completed (history (snd x))
  /\ (exists k, k <= List.length (stage_sequence use_storyboard)
        /\ dict_keys (steps (project_data r))
           = map stage_key (firstn k (stage_sequence use_storyboard)))
  /\ (forall s e, In (s, e) (raised_stages (history (snd x))) ->
        error r = Some (exn_str e)
        /\ exists k, nth_error (stage_sequence use_storyboard) k = Some s
             /\ dict_keys (steps (project_data r))
                = map stage_key (firstn k (stage_sequence use_storyboard))).
Proof.
  cbv zeta. revert r.
  change ((fun x => forall r, fst x = Ok r -> success r = false ->
    (exists m, error r = Some m)
    /\ video_path r = None
    /\ steps (project_data r) = completed (history (snd x))
    /\ (exists k, k <= List.length (stage_sequence use_storyboard)
          /\ dict_keys (steps (project_data r))
             = map stage_key (firstn k (stage_sequence use_storyboard)))
    /\ (forall s e, In (s, e) (raised_stages (history (snd x))) ->
          error r = Some (exn_str e)
          /\ exists k, nth_error (stage_sequence use_storyboard) k = Some s
               /\ dict_keys (steps (project_data r))
                  = map stage_key (firstn k (stage_sequence use_storyboard))))
    (run w use_storyboard user_prompt fname ns sd cb now)).
  destruct cb as [f|]; destruct use_storyboard; start_walk.
  all: intros r Hr; try discriminate Hr; injection Hr as <-;
    cbn [success]; intros Hs; try discriminate Hs.
  all: cbn [error video_path project_data steps].
  all: split; [eexists; reflexivity|].
  all: split; [reflexivity|].
  all: split; [reflexivity|].
  all: split; [find_prefix|].
  all: intros s0 e0 Hin; vm_compute in Hin; try contradiction.
  all: destruct Hin as [Hin|[]]; injection Hin as <- <-.
  all: split; [reflexivity|].
  all: first [ exists 0; split; reflexivity | exists 1; split; reflexivity
             | exists 2; split; reflexivity | exists 3; split; reflexivity
             | exists 4; split; reflexivity | exists 5; split; reflexivity ].
Qed.

(** *** Soundness of the decision procedures *)

Lemma all_pairs_sound A (R : A -> A -> bool) (l : list A) :
  Checks.all_pairs R l = true ->
  forall l1 a l2 b l3, l = l1 ++ a :: l2 ++ b :: l3 -> R a b = true.
Proof.
  intros H l1. revert l H.
  induction l1 as [|x l1 IH]; intros l H a l2 b l3 ->; simpl in H;
    apply andb_true_iff in H; destruct H as [Hhead Htail].
  - rewrite forallb_forall in Hhead. apply Hhead.
    apply in_or_app. right. left. reflexivity.
  - eapply IH; [exact Htail | reflexivity].
Qed.

Lemma all_preceded_sound A (R : list A -> A -> bool) (l : list A) :
  forall seen, Checks.all_preceded R seen l = true ->
  forall l1 a l2, l = l1 ++ a :: l2 -> R (seen ++ l1) a = true.
Proof.
  intros seen H l1. revert l seen H.
  induction l1 as [|x l1 IH]; intros l seen H a l2 ->; simpl in H;
    apply andb_true_iff in H; destruct H as [Hhead Htail].
  - rewrite app_nil_r. exact Hhead.
  - specialize (IH _ _ Htail a l2 eq_refl).
    rewrite <- app_assoc in IH. exact IH.
Qed.

Lemma stage_eqb_eq (a b : stage) : stage_eqb a b = true -> a = b.
Proof. destruct a, b; simpl; congruence. Qed.

Lemma keys_eqb_eq (a b : list pystr) : Checks.keys_eqb a b = true -> a = b.
Proof.
  revert b. induction a as [|x a IH]; intros [|y b]; simpl;
    try discriminate; auto.
  rewrite andb_true_iff. intros [Hx Hab]. apply str_eqb_eq in Hx.
  f_equal; auto.
Qed.

Lemma order_check_sound use_storyboard (h : list event) :
  Checks.order_check use_storyboard h = true ->
  SpecStatements.steps_nondecreasing (notifications h)
  /\ SpecStatements.completed_before_next_start (notifications h)
  /\ SpecStatements.start_follows_previous_step (notifications h)
  /\ (forall s recorded, In (s, recorded) (recorded_at_calls h) ->
      exists k, nth_error (stage_sequence use_storyboard) k = Some s
        /\ dict_keys recorded
           = map stage_key (firstn k (stage_sequence use_storyboard))).
Proof.
  unfold Checks.order_check. rewrite !andb_true_iff.
  intros [[[Hle Hord] Hpre] Hrec]. split; [|split; [|split]].
  - intros l1 a l2 b l3 Heq.
    pose proof (@all_pairs_sound _ _ _ Hle _ _ _ _ _ Heq) as Hab.
    unfold Checks.step_le in Hab. apply Nat.leb_le. exact Hab.
  - intros l1 a l2 b l3 Heq Ha Hb Hstep.
    pose proof (@all_pairs_sound _ _ _ Hord _ _ _ _ _ Heq) as Hab.
    unfold Checks.not_start_then_completed in Hab.
    rewrite Ha, Hb in Hab. apply Nat.eqb_eq in Hstep. rewrite Hstep in Hab.
    discriminate Hab.
  - intros l1 a l2 Heq Ha Hstep.
    pose proof (@all_preceded_sound _ _ _ _ Hpre _ _ _ Heq) as Hab.
    unfold Checks.start_follows in Hab. rewrite Ha in Hab. simpl in Hab.
    destruct (Nat.eqb_spec (step_index a) 1) as [E|_]; [contradiction|].
    simpl in Hab. apply existsb_exists in Hab.
    destruct Hab as (b & Hb & Hcond).
    apply andb_true_iff in Hcond. destruct Hcond as [Hs Hphase].
    apply Nat.eqb_eq in Hs. apply orb_true_iff in Hphase.
    exists b. auto.
  - intros s recorded Hin. rewrite forallb_forall in Hrec.
    specialize (Hrec _ Hin). apply existsb_exists in Hrec.
    destruct Hrec as (k & _ & Hk). unfold Checks.recorded_ok in Hk.
    destruct (nth_error (stage_sequence use_storyboard) k) as [s'|] eqn:Hn;
      [|discriminate].
    apply andb_true_iff in Hk. destruct Hk as [Hs Hkeys]. simpl in Hs, Hkeys.
    apply stage_eqb_eq in Hs. apply keys_eqb_eq in Hkeys. subst.
    exists k. auto.
Qed.

(** Every run passes the checks, wherever it stops. *)
Lemma order_check_run w use_storyboard user_prompt fname ns sd cb now :
  Checks.order_check use_storyboard
    (history (snd (run w use_storyboard user_prompt fname ns sd cb now)))
  = true.
Proof.
  change ((fun x => Checks.order_check use_storyboard (history (snd x)) = true)
    (run w use_storyboard user_prompt fname ns sd cb now)).
  destruct cb as [f|]; destruct use_storyboard; start_walk.
  all: vm_compute; reflexivity.
Qed.

Lemma recorded_at_calls_in (h1 h2 : list event) c recorded r :
  In (stage_of c, recorded)
     (recorded_at_calls (h1 ++ Invoked c recorded r :: h2)).
Proof.
  induction h1 as [|ev h1 IH]; simpl; [auto|].
  destruct ev; simpl; auto.
Qed.

Lemma outputs_recorded_sound (h : list event) :
  forall seen, Checks.outputs_recorded seen h ->
  forall h1 c recorded r h2, h = h1 ++ Invoked c recorded r :: h2 ->
  recorded = completed (seen ++ h1).
Proof.
  intros seen H h1. revert h seen H.
  induction h1 as [|ev h1 IH]; intros h seen H c recorded r h2 ->.
  - simpl in H. rewrite app_nil_r. tauto.
  - assert (Hrest : Checks.outputs_recorded (seen ++ [ev])
                      (h1 ++ Invoked c recorded r :: h2)).
    { simpl in H. destruct ev; tauto. }
    specialize (IH _ _ Hrest c recorded r h2 eq_refl).
    rewrite <- app_assoc in IH. exact IH.
Qed.

(** In every run each stage transform finds, as the stage map, the
    outputs of the stages that returned before it. *)
Lemma outputs_recorded_run w use_storyboard user_prompt fname ns sd cb now :
  Checks.outputs_recorded []
    (history (snd (run w use_storyboard user_prompt fname ns sd cb now))).
Proof.
  change ((fun x => Checks.outputs_recorded [] (history (snd x)))
    (run w use_storyboard user_prompt fname ns sd cb now)).
  destruct cb as [f|]; destruct use_storyboard; start_walk.
  all: vm_compute; repeat split; reflexivity.
Qed.

(** C9. In every run the step indices passed to the progress callback
    never decrease; no completed notification of a step comes after the
    starting notification of the next step, which is itself preceded by
    the completed notification of the step before it (or by the notice
    that this step was skipped); and each stage transform is called with
    a stage map that is exactly the outputs, values included, of the
    stages that returned before it, which are all the stages before it
    in the sequence: the output of stage N is recorded before stage N+1
    begins. *)
Theorem notifications_and_records_ordered w use_storyboard user_prompt fname
    ns sd cb now :
  let h := history (snd (run w use_storyboard user_prompt fname ns sd cb now)) in
  SpecStatements.steps_nondecreasing (notifications h)
  /\ SpecStatements.completed_before_next_start (notifications h)
  /\ SpecStatements.start_follows_previous_step (notifications h)
  /\ SpecStatements.recorded_before_next_stage use_storyboard h.
Proof.
  cbv zeta.
  destruct (order_check_sound _ _
              (order_check_run w use_storyboard user_prompt fname ns sd cb now))
    as (Hsteps & Hcompleted & Hstart & Hkeys).
  split; [exact Hsteps|]. split; [exact Hcompleted|]. split; [exact Hstart|].
  intros h1 c recorded r h2 Heq. split.
  - exact (@outputs_recorded_sound _ []
             (outputs_recorded_run w use_storyboard user_prompt fname ns sd cb
                now) _ _ _ _ _ Heq).
  - apply Hkeys. rewrite Heq. apply recorded_at_calls_in.
Qed.

(** The output path handed to the assembler is [OUTPUT_DIR / name]; its
    name is the caller's when that is a non-empty string, and else the
    name derived from the title of the script the first stage returned
    and from the timestamp of the run. *)
Lemma assembled_path_cases w use_storyboard user_prompt fname ns sd cb now p :
  In p (assembled_paths
          (history (snd (run w use_storyboard user_prompt fname ns sd cb now)))) ->
  exists name,
    p = PathJoin (OUTPUT_DIR w) name
    /\ match fname with
       | Some (c :: f) => name = c :: f
       | _ => exists script_data title,
                transform w (CallScript user_prompt) = Ok script_data
                /\ py_getitem script_data (lit "title") = Ok title
                /\ Filename.derive_output_filename (unicode_isalnum w) title now
                   = Ok name
       end.
Proof.
  change ((fun x => In p (assembled_paths (history (snd x))) ->
    exists name,
      p = PathJoin (OUTPUT_DIR w) name
      /\ match fname with
         | Some (c :: f) => name = c :: f
         | _ => exists script_data title,
                  transform w (CallScript user_prompt) = Ok script_data
                  /\ py_getitem script_data (lit "title") = Ok title
                  /\ Filename.derive_output_filename (unicode_isalnum w) title
                       now = Ok name
         end)
    (run w use_storyboard user_prompt fname ns sd cb now)).
  destruct cb as [f|]; destruct use_storyboard; start_walk.
  all: intros Hin; vm_compute in Hin; try contradiction.
  all: destruct Hin as [<-|[]].
  all: eexists; split; [reflexivity|].
  all: match goal with
       | Hc : match ?o with _ => _ end |- _ =>
           destruct o as [[|c0 f0]|]; [ | exact Hc | ];
           destruct Hc as (title & Hg & Hd); eauto 10
       end.
Qed.

(** C6. The name [run] derives from a title is the title filtered to its
    alphanumeric characters, spaces, hyphens and underscores, with spaces
    turned into underscores, cut to 50 characters and followed by an
    underscore, the timestamp and [.mp4]; it is a function of the title
    and the timestamp alone, and it is the name under which a run without
    an output file name has its video assembled. *)
Theorem derived_filename_meets_spec w use_storyboard user_prompt ns sd cb now
    script_data title :
  transform w (CallScript user_prompt) = Ok script_data ->
  py_getitem script_data (lit "title") = Ok (PStr title) ->
  Filename.derive_output_filename (unicode_isalnum w) (PStr title) now
  = Ok (Filename.spec_output_filename (unicode_isalnum w) title now)
  /\ forall p,
       In p (assembled_paths
               (history (snd (run w use_storyboard user_prompt None ns sd cb
                                now)))) ->
       p = PathJoin (OUTPUT_DIR w)
             (Filename.spec_output_filename (unicode_isalnum w) title now).
Proof.
  intros Htr Hg. split; [apply FilenameFacts.derive_on_string|].
  intros p Hin. apply assembled_path_cases in Hin.
  destruct Hin as (name & -> & sd' & title' & Htr' & Hg' & Hd).
  rewrite Htr in Htr'. injection Htr' as <-.
  rewrite Hg in Hg'. injection Hg' as <-.
  rewrite FilenameFacts.derive_on_string in Hd. injection Hd as <-.
  reflexivity.
Qed.

(** C10, as the code has it.  A supplied output file name that is not
    empty is used as it is: the assembler is handed [OUTPUT_DIR / name]
    for that very name.  An absent name and an empty one are both
    replaced by the name derived from the title. *)
Theorem nonempty_supplied_filename_used w use_storyboard user_prompt fname
    ns sd cb now p :
  In p (assembled_paths
          (history (snd (run w use_storyboard user_prompt fname ns sd cb now)))) ->
  (forall f, fname = Some f -> f <> [] -> p = PathJoin (OUTPUT_DIR w) f)
  /\ (fname = None \/ fname = Some [] ->
      exists script_data title name,
        transform w (CallScript user_prompt) = Ok script_data
        /\ py_getitem script_data (lit "title") = Ok title
        /\ Filename.derive_output_filename (unicode_isalnum w) title now
           = Ok name
        /\ p = PathJoin (OUTPUT_DIR w) name).
Proof.
  intros Hin. apply assembled_path_cases in Hin.
  destruct Hin as (name & -> & Hname). split.
  - intros f -> Hf. destruct f as [|c f]; [congruence|]. rewrite Hname.
    reflexivity.
  - intros [-> | ->]; destruct Hname as (sd' & title & Htr & Hg & Hd);
      exists sd', title, name; auto.
Qed.

(** C8, as the code has it.  What script generation returns is a
    dictionary that holds a title key and a script key, whatever their
    values; and the orchestrator hands it to scene planning as it is
    whenever no progress callback raises. *)
Theorem script_output_has_both_keys up w use_storyboard user_prompt fname ns
    sd cb now v :
  transform w (CallScript user_prompt)
  = ScriptGenerator.generate up user_prompt ->
  ScriptGenerator.generate up user_prompt = Ok v ->
  (exists d t s, v = PDict d
     /\ dict_lookup (lit "title") d = Some t
     /\ dict_lookup (lit "script") d = Some s)
  /\ (callback_raises
        (history (snd (run w use_storyboard user_prompt fname ns sd cb now)))
      = [] ->
      planned_scripts
        (history (snd (run w use_storyboard user_prompt fname ns sd cb now)))
      = [v]).
Proof.
  intros Hw Hgen. rewrite Hgen in Hw.
  destruct (ScriptGeneratorFacts.generate_ok_has_keys _ _ Hgen)
    as (d & t & s & -> & Ht & Hs).
  split; [eauto 10|].
  change ((fun x => callback_raises (history (snd x)) = [] ->
                    planned_scripts (history (snd x)) = [PDict d])
    (run w use_storyboard user_prompt fname ns sd cb now)).
  clear Hgen.
  destruct cb as [f|]; destruct use_storyboard; start_walk.
  all: repeat match goal with
       | H : transform _ (CallScript _) = _ |- _ =>
           rewrite Hw in H; first [discriminate H | injection H as <-]
       end.
  all: intros Hcb; vm_compute in Hcb; try discriminate Hcb.
  all: try (vm_compute; reflexivity).
  all: match goal with
       | H : obind (py_get (PDict _) _ _) _ = Raise _ |- _ =>
           cbn in H; discriminate H
       end.
Qed.

End PipelineFacts.


(* ================================================================== *)
(** ** The theorems at concrete runs, and the runs on which sentences of
    the specification fail *)

Module Scenarios.
Import Py Pipeline Examples SpecStatements.

(** Scenario A of the specification: the run completes and the output
    path carries the sanitized title and the timestamp. *)
Example scenario_full_run :
  option_map success (returned run_good) = Some true
  /\ assembled_paths (history (snd run_good))
     = [PathJoin (lit "output") (lit "How_Rainbows_Form_20240131_093000.mp4")]
  /\ map fst (metadata_writes (history (snd run_good)))
     = [current_project (snd run_good)].
Proof. vm_compute. auto. Qed.

(** Scenario B: with storyboards disabled the callback is told of the
    skip and the video transform gets no storyboard images. *)
Example scenario_storyboard_skipped :
  In (3, "⏭️ Storyboard generation skipped")
     (map (fun n => (step_index n, status_label n))
        (notifications (history (snd run_good))))
  /\ ~ In Storyboard (invoked (history (snd run_good)))
  /\ exists plan rec r,
       In (Invoked (CallClips plan PNone) rec r) (history (snd run_good)).
Proof.
  split; [vm_compute; tauto|]. split.
  - vm_compute. intuition discriminate.
  - do 3 eexists. vm_compute. do 8 right. left. reflexivity.
Qed.

(** Scenario D: the video transform fails after script and scenes. *)
Example scenario_clips_fail :
  option_map success (returned run_clips_fail) = Some false
  /\ dict_keys (steps (current_project (snd run_clips_fail)))
     = [lit "script"; lit "scenes"]
  /\ metadata_writes (history (snd run_clips_fail)) = [].
Proof. vm_compute. auto. Qed.

(** *** The script generator *)

(** C7 at two replies of the model.  A reply that is not JSON ends in a
    [ValueError]; a JSON object without its script field ends in a
    [RuntimeError], the class every other failure of the generator gets,
    although the validation raises a [ValueError] for it. *)
Theorem missing_field_not_a_ValueError :
  ScriptGenerator.generate (upstream_answering text_not_json) prompt_rainbows
  = Raise (mkExn ValueError
             (lit "Failed to parse script response: Expecting value: line 1 column 1 (char 0)"))
  /\ ScriptGenerator.generate (upstream_answering (json_text doc_only_title))
       prompt_rainbows
     = Raise (mkExn RuntimeError
                (lit "Script generation failed: Invalid script structure returned")).
Proof. split; vm_compute; reflexivity. Qed.

(** *** Runs in which a stage transform raises *)

Lemma stage_failure_skips_persistence_witness :
  In (Clips, provider_down) (raised_stages (history (snd run_clips_fail)))
  /\ metadata_writes (history (snd run_clips_fail)) = []
  /\ steps (current_project (snd run_clips_fail))
     = completed (history (snd run_clips_fail))
  /\ ends_with provider_down run_clips_fail.
Proof.
  split.
  - vm_compute. auto.
  - apply (PipelineFacts.stage_failure_skips_persistence
             (world (upstream_answering (json_text doc_rainbows))
                (failing_at Clips provider_down) (Ok tt))
             false prompt_rainbows None PNone PNone (Some quiet) now_sample
             Clips provider_down).
    vm_compute. auto.
Defined.

(** C1 fails where the script stage raises (Scenario C of the
    specification): the run returns its failure and writes nothing. *)
Lemma no_metadata_after_script_failure :
  ~ persists_on_stage_failure run_script_fails.
Proof.
  intros H. destruct H as (snapshot & r & Hin & _).
  - vm_compute. discriminate.
  - vm_compute in Hin. exact Hin.
Qed.

(** *** Runs in which the metadata write raises *)

Lemma persistence_failure_fails_run_witness :
  In (current_project (snd run_disk_full), Raise disk_full)
     (metadata_writes (history (snd run_disk_full)))
  /\ raised_stages (history (snd run_disk_full)) = []
  /\ map fst (completed (history (snd run_disk_full)))
     = map stage_key (stage_sequence false)
  /\ steps (current_project (snd run_disk_full))
     = completed (history (snd run_disk_full))
  /\ current_project (snd run_disk_full) = current_project (snd run_disk_full)
  /\ ends_with disk_full run_disk_full.
Proof.
  split.
  - vm_compute. auto.
  - apply (PipelineFacts.persistence_failure_fails_run
             (world (upstream_answering (json_text doc_rainbows)) no_failure
                (Raise disk_full))
             false prompt_rainbows None PNone PNone (Some quiet) now_sample
             (current_project (snd run_disk_full)) disk_full).
    vm_compute. auto.
Defined.

(** C2 fails where the disk is full: all stages returned, and the result
    reports failure with the message of the write. *)
Lemma persistence_failure_overrides_success :
  ~ persistence_failure_is_harmless false run_disk_full.
Proof.
  intros H. destruct H as (r & Hr & Hs & _).
  - vm_compute. reflexivity.
  - exists (current_project (snd run_disk_full)), disk_full.
    vm_compute. auto.
  - vm_compute in Hr. injection Hr as <-. discriminate Hs.
Qed.

(** *** Runs in which the progress callback raises *)

Lemma callback_exception_aborts_run_witness :
  In (mkNotification 1 6 "📝 Generating script..."
        [FLit "Creating narrative structure"], widget_gone)
     (callback_raises (history (snd run_callback_raises_first)))
  /\ (exists h, history (snd run_callback_raises_first)
                = h ++ [Notified (mkNotification 1 6 "📝 Generating script..."
                                    [FLit "Creating narrative structure"])
                          (Raise widget_gone)])
  /\ steps (current_project (snd run_callback_raises_first))
     = completed (history (snd run_callback_raises_first))
  /\ ends_with widget_gone run_callback_raises_first.
Proof.
  split.
  - vm_compute. auto.
  - apply (PipelineFacts.callback_exception_aborts_run good_world false
             prompt_rainbows None PNone PNone
             (Some (raising_on "📝 Generating script..." widget_gone))
             now_sample).
    vm_compute. auto.
Defined.

(** C3 fails for a callback that raises on the first notification: no
    stage is invoked, where the same run with a quiet callback invokes
    them all. *)
Lemma raising_callback_changes_run :
  ~ callback_is_observational good_world false prompt_rainbows None PNone
      PNone now_sample (raising_on "📝 Generating script..." widget_gone).
Proof.
  intros (Hinvoked & _). vm_compute in Hinvoked. discriminate Hinvoked.
Qed.

(** *** Results *)

Lemma success_result_complete_witness :
  exists r,
    fst run_good = Ok r /\ success r = true
    /\ (exists v, video_path r = Some v)
    /\ error r = None
    /\ dict_keys (steps (project_data r)) = map stage_key (stage_sequence false)
    /\ (~ In (stage_key Storyboard) (dict_keys (steps (project_data r)))
        <-> false = false).
Proof.
  eexists. split; [vm_compute; reflexivity|]. split; [reflexivity|].
  apply (PipelineFacts.success_result_complete good_world false
           prompt_rainbows None PNone PNone (Some quiet) now_sample);
    reflexivity.
Defined.

Lemma failure_result_prefix_witness :
  exists r,
    fst run_clips_fail = Ok r /\ success r = false
    /\ (exists m, error r = Some m)
    /\ video_path r = None
    /\ steps (project_data r) = completed (history (snd run_clips_fail))
    /\ (exists k, k <= List.length (stage_sequence false)
          /\ dict_keys (steps (project_data r))
             = map stage_key (firstn k (stage_sequence false)))
    /\ (forall s e, In (s, e) (raised_stages (history (snd run_clips_fail))) ->
          error r = Some (exn_str e)
          /\ exists k, nth_error (stage_sequence false) k = Some s
               /\ dict_keys (steps (project_data r))
                  = map stage_key (firstn k (stage_sequence false))).
Proof.
  eexists. split; [vm_compute; reflexivity|]. split; [reflexivity|].
  apply (PipelineFacts.failure_result_prefix
           (world (upstream_answering (json_text doc_rainbows))
              (failing_at Clips provider_down) (Ok tt))
           false prompt_rainbows None PNone PNone (Some quiet) now_sample);
    reflexivity.
Defined.

(** C5 fails where the callback fails a bare assertion on the last
    notification: the error string is empty, and the stage map holds the
    whole sequence. *)
Lemma failure_with_empty_error_and_all_stages :
  ~ failure_has_nonempty_error run_callback_raises_last
  /\ ~ failure_has_strict_prefix false run_callback_raises_last.
Proof.
  pose (r := mkRunResult false None None None
               (current_project (snd run_callback_raises_last)) (Some [])).
  assert (Hr : fst run_callback_raises_last = Ok r)
    by (vm_compute; reflexivity).
  split.
  - intros H. destruct (H r Hr eq_refl) as (m & Hm & Hne).
    vm_compute in Hm. injection Hm as <-. apply Hne. reflexivity.
  - intros H. destruct (H r Hr eq_refl) as (k & Hk & Hkeys).
    destruct k as [|[|[|[|[|k]]]]]; vm_compute in Hkeys;
      try discriminate Hkeys.
    vm_compute in Hk. lia.
Qed.

(** *** The output file name *)

Lemma derived_filename_meets_spec_witness :
  transform good_world (CallScript prompt_rainbows)
  = Ok (json_value doc_rainbows)
  /\ py_getitem (json_value doc_rainbows) (lit "title")
     = Ok (PStr (lit "How Rainbows Form!"))
  /\ Filename.derive_output_filename (unicode_isalnum good_world)
       (PStr (lit "How Rainbows Form!")) now_sample
     = Ok (Filename.spec_output_filename (unicode_isalnum good_world)
             (lit "How Rainbows Form!") now_sample)
  /\ forall p,
       In p (assembled_paths
               (history (snd (run good_world false prompt_rainbows None PNone
                                PNone (Some quiet) now_sample)))) ->
       p = PathJoin (OUTPUT_DIR good_world)
             (Filename.spec_output_filename (unicode_isalnum good_world)
                (lit "How Rainbows Form!") now_sample).
Proof.
  split; [vm_compute; reflexivity|]. split; [vm_compute; reflexivity|].
  apply (PipelineFacts.derived_filename_meets_spec good_world false
           prompt_rainbows PNone PNone (Some quiet) now_sample
           (script_data := json_value doc_rainbows));
    vm_compute; reflexivity.
Defined.

Lemma nonempty_supplied_filename_used_witness :
  In (PathJoin (lit "output") custom_name)
     (assembled_paths (history (snd run_custom_filename)))
  /\ (forall f, Some custom_name = Some f -> f <> [] ->
        PathJoin (lit "output") custom_name
        = PathJoin (OUTPUT_DIR good_world) f)
  /\ (Some custom_name = None \/ Some custom_name = Some [] ->
      exists script_data title name,
        transform good_world (CallScript prompt_rainbows) = Ok script_data
        /\ py_getitem script_data (lit "title") = Ok title
        /\ Filename.derive_output_filename (unicode_isalnum good_world) title
             now_sample = Ok name
        /\ PathJoin (lit "output") custom_name
           = PathJoin (OUTPUT_DIR good_world) name).
Proof.
  split.
  - vm_compute. auto.
  - apply (PipelineFacts.nonempty_supplied_filename_used good_world false
             prompt_rainbows (Some custom_name) PNone PNone None now_sample).
    vm_compute. auto.
Defined.

(** C10 fails for the empty file name: it is supplied, and the video is
    assembled under the derived name. *)
Lemma empty_filename_is_replaced :
  ~ supplied_filename_used good_world (Some []) run_empty_filename.
Proof.
  intros H.
  specialize (H [] eq_refl
                (PathJoin (lit "output")
                   (lit "How_Rainbows_Form_20240131_093000.mp4"))).
  assert (Hp : PathJoin (lit "output")
                 (lit "How_Rainbows_Form_20240131_093000.mp4")
               = PathJoin (OUTPUT_DIR good_world) []).
  { apply H. vm_compute. auto. }
  vm_compute in Hp. discriminate Hp.
Qed.

(** *** The script handed to the scene planner *)

Lemma script_output_has_both_keys_witness :
  transform empty_script_world (CallScript prompt_rainbows)
  = ScriptGenerator.generate (upstream_answering (json_text doc_empty_fields))
      prompt_rainbows
  /\ ScriptGenerator.generate (upstream_answering (json_text doc_empty_fields))
       prompt_rainbows
     = Ok (json_value doc_empty_fields)
  /\ (exists d t s, json_value doc_empty_fields = PDict d
        /\ dict_lookup (lit "title") d = Some t
        /\ dict_lookup (lit "script") d = Some s)
  /\ (callback_raises (history (snd run_empty_script)) = [] ->
      planned_scripts (history (snd run_empty_script))
      = [json_value doc_empty_fields]).
Proof.
  split; [reflexivity|]. split; [vm_compute; reflexivity|].
  apply (PipelineFacts.script_output_has_both_keys
           (upstream_answering (json_text doc_empty_fields))
           empty_script_world false prompt_rainbows None PNone PNone None
           now_sample).
  - reflexivity.
  - vm_compute. reflexivity.
Defined.

(** C8 fails where the model answers with empty fields: generation
    returns them, and the scene planner is called with them. *)
Lemma empty_script_reaches_scene_planner :
  ScriptGenerator.generate (upstream_answering (json_text doc_empty_fields))
    prompt_rainbows
  = Ok (json_value doc_empty_fields)
  /\ ~ script_fields_nonempty (json_value doc_empty_fields)
  /\ ~ invalid_script_stops_run run_empty_script.
Proof.
  assert (Hempty : ~ script_fields_nonempty (json_value doc_empty_fields)).
  { intros ((s & Hs & Hne) & _). vm_compute in Hs. injection Hs as <-.
    apply Hne. reflexivity. }
  split; [vm_compute; reflexivity|]. split; [exact Hempty|].
  intros H. apply Hempty. apply H. vm_compute. auto.
Qed.

End Scenarios.

(* ================================================================== *)
(** ** More about the derivation of the output file name *)

Module FilenameMore.
Import Py Filename PyFacts FilenameFacts Observations.

Section Facts.
Variable uni : codepoint -> bool.

Lemma space_not_alnum : isalnum uni SPACE = false.
Proof. reflexivity. Qed.

Lemma stem_chars (title : pystr) (c : codepoint) :
  In c (stem uni title) ->
  (isalnum uni c = true \/ c = HYPHEN \/ c = UNDERSCORE) /\ c <> SPACE.
Proof.
  intros Hc. destruct (sanitized_part uni title) as [_ Hall].
  rewrite Forall_forall in Hall. specialize (Hall c Hc). split; [exact Hall|].
  intros ->. destruct Hall as [H | [H | H]]; discriminate H.
Qed.

(** X1. The name derived from a string title is a stem followed by an
    underscore, the timestamp and [.mp4]; the stem has at most 50
    characters, each of them alphanumeric, a hyphen or an underscore, and
    none of them a space. *)
Theorem derived_name_is_safe (title timestamp : pystr) :
  exists s,
    derive_output_filename uni (PStr title) timestamp
    = Ok (s ++ lit "_" ++ timestamp ++ lit ".mp4")
    /\ List.length s <= 50
    /\ Forall (fun c => (isalnum uni c = true \/ c = HYPHEN \/ c = UNDERSCORE)
                        /\ c <> SPACE) s
    /\ List.length (s ++ lit "_" ++ timestamp ++ lit ".mp4")
       <= 55 + List.length timestamp.
Proof.
  exists (stem uni title). split; [apply derive_on_string|].
  assert (Hlen : List.length (stem uni title) <= 50) by apply firstn_le_length.
  split; [exact Hlen|]. split.
  - apply Forall_forall. intros c Hc. apply stem_chars with title. exact Hc.
  - rewrite !length_app. change (List.length (lit "_")) with 1.
    change (List.length (lit ".mp4")) with 4. lia.
Qed.

Lemma filter_all A (f : A -> bool) (l : list A) :
  (forall x, In x l -> f x = true) -> filter f l = l.
Proof.
  induction l as [|a l IH]; simpl; intros H; [reflexivity|].
  rewrite (H a (or_introl eq_refl)). f_equal. apply IH. intros x Hx.
  apply H. right. exact Hx.
Qed.

Lemma map_fixed A (f : A -> A) (l : list A) :
  (forall x, In x l -> f x = x) -> map f l = l.
Proof.
  induction l as [|a l IH]; simpl; intros H; [reflexivity|].
  rewrite (H a (or_introl eq_refl)). f_equal. apply IH. intros x Hx.
  apply H. right. exact Hx.
Qed.

(** X2. Deriving a name from the stem of a derived name changes nothing:
    the stem is kept as it is. *)
Theorem derived_stem_is_stable (title timestamp : pystr) :
  derive_output_filename uni (PStr (stem uni title)) timestamp
  = Ok (stem uni title ++ lit "_" ++ timestamp ++ lit ".mp4").
Proof.
  rewrite derive_on_string. unfold spec_output_filename. f_equal.
  change ([UNDERSCORE] ++ timestamp ++ lit ".mp4")
    with (lit "_" ++ timestamp ++ lit ".mp4").
  f_equal.
  assert (Hf : filter (allowed uni) (stem uni title) = stem uni title).
  { apply filter_all. intros c Hc. apply stem_chars in Hc.
    destruct Hc as [[H | [-> | ->]] _]; unfold allowed.
    - rewrite H. reflexivity.
    - rewrite !orb_true_iff. left. right. reflexivity.
    - rewrite !orb_true_iff. right. reflexivity. }
  rewrite Hf.
  assert (Hm : map space_to_underscore (stem uni title) = stem uni title).
  { apply map_fixed. intros c Hc. apply stem_chars in Hc.
    destruct Hc as [_ Hns]. unfold space_to_underscore.
    destruct (N.eqb_spec c SPACE); [contradiction | reflexivity]. }
  rewrite Hm. apply firstn_all2. apply firstn_le_length.
Qed.

(** X3. A title none of whose characters is kept (the empty title among
    them) gives the name made of the underscore, the timestamp and
    [.mp4] alone. *)
Theorem nothing_kept_gives_bare_name (title timestamp : pystr) :
  (forall c, In c title -> allowed uni c = false) ->
  derive_output_filename uni (PStr title) timestamp
  = Ok (lit "_" ++ timestamp ++ lit ".mp4").
Proof.
  intros H. rewrite derive_on_string. unfold spec_output_filename.
  assert (Hf : filter (allowed uni) title = []).
  { induction title as [|c t IH]; simpl; [reflexivity|].
    rewrite (H c (or_introl eq_refl)). apply IH. intros x Hx. apply H.
    right. exact Hx. }
  rewrite Hf. reflexivity.
Qed.

(** A title that cannot be iterated over has no derived name. *)
Lemma derive_not_iterable (title : pyval) (timestamp : pystr) :
  title = PNone \/ (exists b, title = PBool b) \/ (exists z, title = PInt z) ->
  exists m, derive_output_filename uni title timestamp
            = Raise (mkExn TypeError m).
Proof.
  intros [-> | [[b ->] | [z ->]]]; eexists; reflexivity.
Qed.
End Facts.

Lemma nothing_kept_gives_bare_name_witness :
  (forall c, In c (lit "?!") -> allowed (fun _ => false) c = false)
  /\ derive_output_filename (fun _ => false) (PStr (lit "?!"))
       (lit "20240131_093000")
     = Ok (lit "_" ++ lit "20240131_093000" ++ lit ".mp4").
Proof.
  assert (H : forall c, In c (lit "?!") -> allowed (fun _ => false) c = false).
  { intros c [<- | [<- | []]]; reflexivity. }
  split; [exact H|].
  apply (nothing_kept_gives_bare_name (fun _ => false) (lit "?!")
           (lit "20240131_093000") H).
Defined.

End FilenameMore.

(* ================================================================== *)
(** ** More about the script generator *)

Module ScriptGeneratorMore.
Import Py ScriptGenerator PyFacts ScriptGeneratorFacts Observations.

Section Facts.
Variable up : Upstream.

(** What the body of [generate] raises by itself derives from
    [Exception] and is no [JSONDecodeError]. *)
Lemma contains_raise_kind k v e :
  py_contains k v = Raise e -> is_Exception e = true /\ is_JSONDecodeError e = false.
Proof. destruct v; simpl; intros H; try discriminate H; injection H as <-; auto. Qed.

Lemma getitem_raise_kind v k e :
  py_getitem v k = Raise e -> is_Exception e = true /\ is_JSONDecodeError e = false.
Proof.
  destruct v; simpl; try destruct (dict_lookup k d); intros H;
    try discriminate H; injection H as <-; auto.
Qed.

Lemma body_raise (user_prompt : pystr) (e : exn) :
  generate_body up user_prompt = Raise e ->
  from_upstream up user_prompt e
  \/ (is_Exception e = true /\ is_JSONDecodeError e = false).
Proof.
  unfold generate_body, bind, from_upstream.
  destruct (create up user_prompt) as [choices|e0] eqn:Hc.
  2:{ intros H. injection H as <-. auto. }
  destruct choices as [|[content|] rest]; simpl.
  1,3: intros H; injection H as <-; auto.
  destruct (json_loads up (strip content)) as [sd|e0] eqn:Hj.
  2:{ intros H. injection H as <-. left. right. eauto. }
  destruct (py_contains (lit "title") sd) as [[|]|e0] eqn:Ht; simpl.
  - destruct (py_contains (lit "script") sd) as [[|]|e0] eqn:Hs; simpl.
    + destruct (py_getitem sd (lit "title")) as [t|e0] eqn:Hg.
      * discriminate.
      * intros H. injection H as <-. right. eapply getitem_raise_kind. exact Hg.
    + intros H. injection H as <-. auto.
    + intros H. injection H as <-. right. eapply contains_raise_kind. exact Hs.
  - intros H. injection H as <-. auto.
  - intros H. injection H as <-. right. eapply contains_raise_kind. exact Ht.
Qed.

(** X4. Every failure of [generate] is of one of three kinds: a
    [ValueError] that wraps a [JSONDecodeError] of the upstream call or of
    the decoder; a [RuntimeError] that wraps any other exception deriving
    from [Exception]; or an exception outside [Exception], which the
    upstream call or the decoder raised and which passes unchanged. *)
Theorem generate_failure_kinds (user_prompt : pystr) (e' : exn) :
  generate up user_prompt = Raise e' ->
  (exists e, from_upstream up user_prompt e /\ is_JSONDecodeError e = true
     /\ e' = mkExn ValueError
               (lit "Failed to parse script response: " ++ exn_str e))
  \/ (exists e, is_JSONDecodeError e = false /\ is_Exception e = true
        /\ e' = mkExn RuntimeError
                  (lit "Script generation failed: " ++ exn_str e))
  \/ (from_upstream up user_prompt e' /\ is_Exception e' = false).
Proof.
  unfold generate, try_except.
  destruct (generate_body up user_prompt) as [v|e] eqn:Hb; [discriminate|].
  unfold generate_handler. apply body_raise in Hb.
  destruct (is_JSONDecodeError e) eqn:Hj.
  - intros H. injection H as <-. left. exists e.
    destruct Hb as [Hb | [_ Hb]]; [auto | congruence].
  - destruct (is_Exception e) eqn:He.
    + intros H. injection H as <-. right. left. eauto.
    + intros H. injection H as <-. right. right.
      destruct Hb as [Hb | [Hb _]]; [auto | congruence].
Qed.

(** X5. [generate] returns exactly when the first choice of the upstream
    answer decodes, once stripped, to a dictionary that holds both keys;
    it then returns that dictionary as it is. *)
Theorem generate_returns_iff (user_prompt : pystr) (v : pyval) :
  generate up user_prompt = Ok v <->
  exists content rest d t s,
    create up user_prompt = Ok (Some content :: rest)
    /\ json_loads up (strip content) = Ok (PDict d)
    /\ dict_lookup (lit "title") d = Some t
    /\ dict_lookup (lit "script") d = Some s
    /\ v = PDict d.
Proof.
  split.
  - intros H. pose proof (generate_ok_inv _ _ H)
      as (content & rest & Hc & Hj & _ & _ & _).
    destruct (generate_ok_has_keys _ _ H) as (d & t & s & -> & Ht & Hs).
    exists content, rest, d, t, s. auto.
  - intros (content & rest & d & t & s & Hc & Hj & Ht & Hs & ->).
    unfold generate, generate_body, bind, try_except.
    rewrite Hc. simpl first_item. cbv iota. simpl content_strip. cbv iota.
    rewrite Hj. cbv iota beta. unfold py_contains, py_getitem.
    rewrite Ht, Hs. reflexivity.
Qed.

(** X6. A reply that decodes to anything but a dictionary (a list, a
    string, a number, a boolean, null) ends in a [RuntimeError], also when
    it passes both membership tests. *)
Theorem non_object_reply_is_RuntimeError user_prompt content rest v :
  create up user_prompt = Ok (Some content :: rest) ->
  json_loads up (strip content) = Ok v ->
  (forall d, v <> PDict d) ->
  exists m, generate up user_prompt = Raise (mkExn RuntimeError m).
Proof.
  intros Hc Hj Hnd. unfold generate, generate_body, bind, try_except.
  rewrite Hc. simpl first_item. cbv iota. simpl content_strip. cbv iota.
  rewrite Hj. cbv iota beta.
  destruct v as [| b | z | s | l | d];
    try (eexists; reflexivity); [ | | exfalso; eapply Hnd; reflexivity].
  - simpl py_contains. cbv iota beta.
    destruct (is_substring (lit "title") s); simpl;
      [destruct (is_substring (lit "script") s); simpl|];
      eexists; reflexivity.
  - simpl py_contains. cbv iota beta.
    destruct (existsb (fun x => eq_str x (lit "title")) l); simpl;
      [destruct (existsb (fun x => eq_str x (lit "script")) l); simpl|];
      eexists; reflexivity.
Qed.

(** X7. An answer without choices, and an answer whose first choice has
    no content, end in a [RuntimeError]; the decoder is not called. *)
Theorem empty_reply_is_RuntimeError user_prompt choices :
  create up user_prompt = Ok choices ->
  choices = [] \/ (exists rest, choices = None :: rest) ->
  generate up user_prompt
  = Raise (mkExn RuntimeError
             (lit "Script generation failed: "
              ++ match choices with
                 | [] => lit "list index out of range"
                 | _ => lit "'NoneType' object has no attribute 'strip'"
                 end)).
Proof.
  intros Hc [-> | [rest ->]]; unfold generate, generate_body, bind, try_except;
    rewrite Hc; reflexivity.
Qed.
End Facts.

Import Examples Examples2.

Lemma non_object_reply_is_RuntimeError_witness :
  create upstream_list_reply prompt_rainbows = Ok [Some (lit "[]")]
  /\ json_loads upstream_list_reply (strip (lit "[]"))
     = Ok (PList [PStr (lit "title"); PStr (lit "script")])
  /\ (forall d, PList [PStr (lit "title"); PStr (lit "script")] <> PDict d)
  /\ exists m, generate upstream_list_reply prompt_rainbows
               = Raise (mkExn RuntimeError m).
Proof.
  split; [reflexivity|]. split; [reflexivity|].
  assert (H : forall d, PList [PStr (lit "title"); PStr (lit "script")] <> PDict d)
    by (intros d; discriminate).
  split; [exact H|].
  apply (@non_object_reply_is_RuntimeError upstream_list_reply prompt_rainbows
           (lit "[]") [] _ eq_refl eq_refl H).
Defined.

Lemma empty_reply_is_RuntimeError_witness :
  create upstream_no_choices prompt_rainbows = Ok []
  /\ (@nil (option pystr) = [] \/ exists rest, @nil (option pystr) = None :: rest)
  /\ generate upstream_no_choices prompt_rainbows
     = Raise (mkExn RuntimeError
                (lit "Script generation failed: "
                 ++ lit "list index out of range")).
Proof.
  split; [reflexivity|]. split; [left; reflexivity|].
  apply (@empty_reply_is_RuntimeError upstream_no_choices prompt_rainbows []
           eq_refl).
  left. reflexivity.
Defined.

Lemma generate_failure_kinds_witness :
  generate (upstream_answering text_not_json) prompt_rainbows
  = Raise (mkExn ValueError
             (lit "Failed to parse script response: Expecting value: line 1 column 1 (char 0)"))
  /\ ((exists e, from_upstream (upstream_answering text_not_json)
                   prompt_rainbows e
                 /\ is_JSONDecodeError e = true
                 /\ mkExn ValueError
                      (lit "Failed to parse script response: Expecting value: line 1 column 1 (char 0)")
                    = mkExn ValueError
                        (lit "Failed to parse script response: " ++ exn_str e))
      \/ (exists e, is_JSONDecodeError e = false /\ is_Exception e = true
            /\ mkExn ValueError
                 (lit "Failed to parse script response: Expecting value: line 1 column 1 (char 0)")
               = mkExn RuntimeError
                   (lit "Script generation failed: " ++ exn_str e))
      \/ (from_upstream (upstream_answering text_not_json) prompt_rainbows
            (mkExn ValueError
               (lit "Failed to parse script response: Expecting value: line 1 column 1 (char 0)"))
          /\ is_Exception
               (mkExn ValueError
                  (lit "Failed to parse script response: Expecting value: line 1 column 1 (char 0)"))
             = false)).
Proof.
  assert (H : generate (upstream_answering text_not_json) prompt_rainbows
              = Raise (mkExn ValueError
                         (lit "Failed to parse script response: Expecting value: line 1 column 1 (char 0)")))
    by (vm_compute; reflexivity).
  split; [exact H|].
  apply (@generate_failure_kinds (upstream_answering text_not_json)
           prompt_rainbows _ H).
Defined.

End ScriptGeneratorMore.

(* ================================================================== *)
(** ** Construction of the pipeline *)

Module ConstructionFacts.
Import Py Tracing Construction.

Section Facts.
Variable iw : InitWorld.

(** X8. [ScriptGenerator(api_key)] uses the key it is given when that is
    not empty, and else the configured one; without either it raises
    [ValueError] and creates no client. *)
Theorem script_generator_key (api_key : pyval) :
  let key := if truthy api_key then api_key else OPENAI_API_KEY iw in
  match ScriptGenerator_init iw api_key [] with
  | (Ok sg, h) =>
      truthy key = true /\ sg_api_key sg = key
      /\ h = [(NewOpenAIClient key, Ok tt)]
  | (Raise e, h) =>
      (truthy key = false /\ h = []
       /\ e = mkExn ValueError (lit "OpenAI API key is required"))
      \/ (truthy key = true /\ h = [(NewOpenAIClient key, Raise e)])
  end.
Proof.
  cbv zeta. unfold ScriptGenerator_init, py_or, bind, ask, raise, ret.
  destruct (truthy api_key) eqn:Ha.
  - rewrite Ha. simpl. destruct (init_respond iw (NewOpenAIClient api_key))
      as [[]|e]; auto.
  - destruct (truthy (OPENAI_API_KEY iw)) eqn:Hc; simpl; [|auto].
    destruct (init_respond iw (NewOpenAIClient (OPENAI_API_KEY iw)))
      as [[]|e]; auto.
Qed.

(** X9. Without an OpenAI key, given or configured, [VideoPipeline(...)]
    raises [ValueError] once the directories are there: no client is
    created and no other component is built. *)
Theorem pipeline_needs_openai_key openai_api_key video_api_key tts_api_key
    video_provider tts_provider use_storyboard svd_model sdxl_model :
  truthy openai_api_key = false ->
  truthy (OPENAI_API_KEY iw) = false ->
  init_respond iw EnsureDirectories = Ok tt ->
  VideoPipeline_init iw openai_api_key video_api_key tts_api_key video_provider
    tts_provider use_storyboard svd_model sdxl_model []
  = (Raise (mkExn ValueError (lit "OpenAI API key is required")),
     [(EnsureDirectories, Ok tt)]).
Proof.
  intros Ha Hc Hd.
  unfold VideoPipeline_init, ScriptGenerator_init, py_or, bind, ask, raise.
  rewrite Hd, Ha, Hc. reflexivity.
Qed.

(** X10. When [VideoPipeline(...)] returns, the client of the script
    generator was created with a non-empty key, the five other components
    were built in the order of the source, and [use_storyboard] is the
    argument when one is given ([False] included) and else the configured
    flag. *)
Theorem pipeline_construction openai_api_key video_api_key tts_api_key
    video_provider tts_provider use_storyboard svd_model sdxl_model vp h :
  VideoPipeline_init iw openai_api_key video_api_key tts_api_key video_provider
    tts_provider use_storyboard svd_model sdxl_model []
  = (Ok vp, h) ->
  built h = [ScenePlannerC; StoryboardGeneratorC; VideoGeneratorC;
             AudioGeneratorC; VideoAssemblerC]
  /\ client_keys h = [sg_api_key (vp_script_gen vp)]
  /\ truthy (sg_api_key (vp_script_gen vp)) = true
  /\ vp_use_storyboard vp
     = match use_storyboard with
       | Some b => b
       | None => USE_STORYBOARD iw
       end
  /\ Forall (fun ev => snd ev = Ok tt) h.
Proof.
  unfold VideoPipeline_init, ScriptGenerator_init, bind, ask, raise, ret.
  cbn [app].
  destruct (init_respond iw EnsureDirectories) as [[]|]; [|discriminate].
  destruct (negb (truthy (py_or openai_api_key (OPENAI_API_KEY iw)))) eqn:Hk;
    [discriminate|].
  cbn [app].
  repeat match goal with
         | |- context [init_respond iw ?c] =>
             destruct (init_respond iw c) as [[]|]; [|discriminate]; cbn [app]
         end.
  intros H. injection H as <- <-. cbn.
  apply negb_false_iff in Hk.
  repeat split; auto. repeat constructor.
Qed.
End Facts.

Lemma pipeline_needs_openai_key_witness :
  truthy PNone = false
  /\ truthy (OPENAI_API_KEY (easy_world (PStr []))) = false
  /\ init_respond (easy_world (PStr [])) EnsureDirectories = Ok tt
  /\ VideoPipeline_init (easy_world (PStr [])) PNone PNone PNone
       (PStr (lit "replicate")) (PStr (lit "elevenlabs")) None PNone PNone []
     = (Raise (mkExn ValueError (lit "OpenAI API key is required")),
        [(EnsureDirectories, Ok tt)]).
Proof.
  repeat (split; [reflexivity|]).
  apply (@pipeline_needs_openai_key (easy_world (PStr [])) PNone PNone PNone
           (PStr (lit "replicate")) (PStr (lit "elevenlabs")) None PNone PNone);
    reflexivity.
Defined.

Lemma pipeline_construction_witness :
  exists vp h,
    VideoPipeline_init (easy_world PNone) (PStr (lit "your-key-here")) PNone
      PNone (PStr (lit "replicate")) (PStr (lit "elevenlabs")) (Some false)
      PNone PNone []
    = (Ok vp, h)
    /\ built h = [ScenePlannerC; StoryboardGeneratorC; VideoGeneratorC;
                  AudioGeneratorC; VideoAssemblerC]
    /\ client_keys h = [sg_api_key (vp_script_gen vp)]
    /\ truthy (sg_api_key (vp_script_gen vp)) = true
    /\ vp_use_storyboard vp = false
    /\ Forall (fun ev => snd ev = Ok tt) h.
Proof.
  do 2 eexists. split; [vm_compute; reflexivity|].
  apply (@pipeline_construction (easy_world PNone) (PStr (lit "your-key-here"))
           PNone PNone (PStr (lit "replicate")) (PStr (lit "elevenlabs"))
           (Some false) PNone PNone).
  vm_compute. reflexivity.
Defined.

End ConstructionFacts.

(* ================================================================== *)
(** ** The pipelines of the integration guide *)

Module GuideFacts.
Import Py Tracing Guide.

Ltac guide_unfold :=
  unfold generate_video_pipeline, generate_video_pipeline_with_option,
    Guide.ask, Tracing.ask, bind, ret; cbn [app].

(** One call after the other, each either raising or returning. *)
Ltac guide_cases respond :=
  repeat match goal with
         | |- context [match respond ?c with _ => _ end] =>
             let E := fresh "E" in destruct (respond c) eqn:E; cbn [app]
         | |- context [let (_, _) := (_, _) in _] => cbv beta iota
         end.

Section Facts.
Variable respond : guide_call -> outcome pyval.

(** X11. [generate_video_pipeline] recovers from nothing: every call but
    the last returned; when it raises, the exception is that of its last
    call; when it returns, the clips are those the video generator made of
    the enhanced plan and of the storyboard images of that plan. *)
Theorem guide_pipeline_outcome (user_prompt : pyval) :
  let x := generate_video_pipeline respond user_prompt [] in
  exists h c r,
    snd x = h ++ [(c, r)]
    /\ all_returned h
    /\ match fst x with
       | Raise e => r = Raise e
       | Ok clips =>
           exists plan images,
             c = GenerateClips plan images /\ r = Ok clips
             /\ In (StoryboardGenerate plan, Ok images) h
             /\ exists plan0,
                  In (EnhanceScenePlan plan0 user_prompt, Ok plan) h
       end.
Proof.
  cbv zeta. guide_unfold. guide_cases respond.
  all: eexists; eexists; eexists;
    (split; [match goal with
             | |- ?l = _ => change l with (removelast l ++ [last l (NewScriptGenerator, Ok PNone)])
             end; cbn [removelast last]; reflexivity|]).
  all: split; [unfold all_returned; repeat constructor; cbn [snd]; eauto|].
  all: cbn [fst]; try reflexivity.
  do 2 eexists. split; [reflexivity|]. split; [reflexivity|].
  split; [cbn; tauto|]. eexists. cbn. tauto.
Qed.

(** X12. With [use_cinematic] off, the enhancer is neither built nor
    called, and the storyboard generator receives the plan the scene
    planner returned. *)
Theorem guide_option_off (user_prompt cinematic_intensity : pyval) :
  let h := snd (generate_video_pipeline_with_option respond user_prompt false
                  cinematic_intensity []) in
  (forall ev, In ev h -> is_enhancer (fst ev) = false)
  /\ (forall plan r, In (StoryboardGenerate plan, r) h ->
      exists script, In (CreatePlan script, Ok plan) h).
Proof.
  cbv zeta. guide_unfold. guide_cases respond.
  all: cbn [snd]; split;
    [ intros ev Hin; cbn [In] in Hin;
      repeat (destruct Hin as [<- | Hin]; [reflexivity|]); contradiction
    | intros plan r Hin; cbn [In] in Hin;
      repeat (destruct Hin as [Hin | Hin];
              [first [discriminate Hin
                     | injection Hin as <- <-; eexists; cbn; tauto]|]);
      contradiction ].
Qed.

(** X13. With [use_cinematic] on and a [print] that never fails, option 3
    calls the same collaborators with the same arguments in the same order
    as option 2 and ends the same way, whatever the intensity. *)
Theorem guide_option_on (user_prompt cinematic_intensity : pyval) :
  (forall text, respond (Print text) = Ok PNone) ->
  let x := generate_video_pipeline_with_option respond user_prompt true
             cinematic_intensity [] in
  let y := generate_video_pipeline respond user_prompt [] in
  fst x = fst y
  /\ collaborator_calls (snd x) = collaborator_calls (snd y).
Proof.
  intros Hprint. cbv zeta. guide_unfold. rewrite !Hprint. cbn [app].
  repeat match goal with
         | |- context [match respond ?c with _ => _ end] =>
             let E := fresh "E" in
             destruct (respond c) eqn:E; cbn [app]; rewrite ?Hprint; cbn [app]
         end.
  all: split; reflexivity.
Qed.
End Facts.

Lemma guide_option_on_witness :
  (forall text, echo (Print text) = Ok PNone)
  /\ fst (generate_video_pipeline_with_option echo (PStr (lit "Mars")) true
            (PStr (lit "high")) [])
     = fst (generate_video_pipeline echo (PStr (lit "Mars")) [])
  /\ collaborator_calls
       (snd (generate_video_pipeline_with_option echo (PStr (lit "Mars")) true
               (PStr (lit "high")) []))
     = collaborator_calls
         (snd (generate_video_pipeline echo (PStr (lit "Mars")) [])).
Proof.
  assert (H : forall text, echo (Print text) = Ok PNone) by reflexivity.
  split; [exact H|].
  apply (@guide_option_on echo (PStr (lit "Mars")) (PStr (lit "high")) H).
Defined.

(** A scene planner that fails ends option 2 after four calls. *)
Example guide_planner_down :
  generate_video_pipeline planner_down (PStr (lit "Mars")) []
  = (Raise (mkExn RuntimeError (lit "Scene planning failed")),
     [(NewScriptGenerator, Ok PNone);
      (Generate (PStr (lit "Mars")), Ok (PStr (lit "script")));
      (NewScenePlanner, Ok PNone);
      (CreatePlan (PStr (lit "script")),
       Raise (mkExn RuntimeError (lit "Scene planning failed")))]).
Proof. reflexivity. Qed.

End GuideFacts.

(* ================================================================== *)
(** ** More about the orchestrator *)

Module PipelineMore.
Import Py Pipeline PyFacts PipelineFacts Observations.

(** *** Rules that keep what the summary and the choice of the file name
    evaluated *)

Section Rules.
Variable w : World.

Lemma print_summary_eq v pr ts stp h :
  _print_summary v (mkState (mkProject pr ts stp) h)
  = (match summary_reads stp with Ok _ => Ok tt | Raise e => Raise e end,
     mkState (mkProject pr ts stp) h).
Proof.
  unfold _print_summary, summary_reads, bind, get_project, eval, ret, obind.
  cbn [current_project steps].
  repeat match goal with
         | |- context [match ?o with Ok _ => _ | Raise _ => _ end] =>
             destruct o; try reflexivity
         end.
Qed.

Lemma wp_summary_eq v (Q : unit -> state -> Prop) (E : exn -> state -> Prop)
    pr ts stp h :
  (forall n, summary_reads stp = Ok n -> Q tt (mkState (mkProject pr ts stp) h)) ->
  (forall e, summary_reads stp = Raise e ->
     E e (mkState (mkProject pr ts stp) h)) ->
  wp (_print_summary v) Q E (mkState (mkProject pr ts stp) h).
Proof.
  intros HQ HE. unfold wp. rewrite print_summary_eq.
  destruct (summary_reads stp); eauto.
Qed.

Lemma choose_eq sd fname pr ts stp h :
  choose_output_filename w sd fname (mkState (mkProject pr ts stp) h)
  = (chosen_name w sd fname ts, mkState (mkProject pr ts stp) h).
Proof.
  assert (D : derive_from_title w sd (mkState (mkProject pr ts stp) h)
              = (obind (py_getitem sd (lit "title"))
                   (fun title =>
                      Filename.derive_output_filename (unicode_isalnum w)
                        title ts),
                 mkState (mkProject pr ts stp) h)).
  { cbv [derive_from_title bind get_project eval current_project timestamp
         obind].
    destruct (py_getitem sd (lit "title")); reflexivity. }
  unfold choose_output_filename, chosen_name.
  destruct fname as [f|]; [|exact D].
  destruct (negb (truthy (PStr f))); [exact D | reflexivity].
Qed.

Lemma wp_choose_eq sd fname (Q : pystr -> state -> Prop)
    (E : exn -> state -> Prop) pr ts stp h :
  (forall name, chosen_name w sd fname ts = Ok name ->
     Q name (mkState (mkProject pr ts stp) h)) ->
  (forall e, chosen_name w sd fname ts = Raise e ->
     E e (mkState (mkProject pr ts stp) h)) ->
  wp (choose_output_filename w sd fname) Q E (mkState (mkProject pr ts stp) h).
Proof.
  intros HQ HE. unfold wp. rewrite choose_eq.
  destruct (chosen_name w sd fname ts); eauto.
Qed.
End Rules.

Ltac wp_head_eq :=
  lazymatch goal with
  | |- wp (_print_summary _) _ _ _ =>
      apply wp_summary_eq; [intros ? ? | intros ? ?]; cbv beta
  | |- wp (choose_output_filename _ _ _) _ _ _ =>
      apply wp_choose_eq; [intros ? ? | intros ? ?]; cbv beta
  | |- _ => wp_head
  end.

Ltac wp_walk_eq :=
  repeat (lazymatch goal with
          | |- final _ (handled _ _) => apply final_handled; intros ?
          | |- final _ _ => fail
          | |- _ => wp_head_eq
          end).

Ltac start_walk_eq :=
  apply wp_run; unfold run_body; wp_walk_eq; unfold final; cbn [fst snd].

(** *** What the code of [run] raises by itself derives from
    [Exception] *)

Lemma obind_raise A B (m : outcome A) (k : A -> outcome B) e :
  obind m k = Raise e -> m = Raise e \/ exists a, m = Ok a /\ k a = Raise e.
Proof. destruct m as [a|e0]; simpl; intros H; [eauto | left; congruence]. Qed.

Lemma getitem_raise v k e : py_getitem v k = Raise e -> is_Exception e = true.
Proof.
  destruct v; simpl; try destruct (dict_lookup k d); intros H;
    try discriminate H; injection H as <-; reflexivity.
Qed.

Lemma get_raise v k d e : py_get v k d = Raise e -> is_Exception e = true.
Proof.
  destruct v; simpl; intros H; try discriminate H; injection H as <-;
    reflexivity.
Qed.

Lemma len_raise v e : py_len v = Raise e -> is_Exception e = true.
Proof.
  destruct v; simpl; intros H; try discriminate H; injection H as <-;
    reflexivity.
Qed.

Lemma len_val_raise v e : len_val v = Raise e -> is_Exception e = true.
Proof.
  unfold len_val. destruct (py_len v) eqn:Hl; [discriminate|].
  intros H. injection H as <-. eapply len_raise. exact Hl.
Qed.

Lemma path_name_raise v e : path_name_of v = Raise e -> is_Exception e = true.
Proof.
  destruct v; simpl; intros H; try discriminate H; injection H as <-;
    reflexivity.
Qed.

Lemma iter_raise v e : py_iter v = Raise e -> is_Exception e = true.
Proof.
  destruct v; simpl; intros H; try discriminate H; injection H as <-;
    reflexivity.
Qed.

Lemma join_safe_raise uni items e :
  Filename.join_safe uni items = Raise e -> is_Exception e = true.
Proof.
  induction items as [|c items IH]; simpl; [discriminate|].
  destruct c; try (intros H; injection H as <-; reflexivity).
  unfold Filename.bind. destruct (Filename.join_safe uni items);
    [discriminate | auto].
Qed.

Lemma derive_raise uni title ts e :
  Filename.derive_output_filename uni title ts = Raise e ->
  is_Exception e = true.
Proof.
  unfold Filename.derive_output_filename, Filename.bind.
  destruct (py_iter title) as [items|e0] eqn:Hi.
  - destruct (Filename.join_safe uni items) eqn:Hj; [discriminate|].
    intros H. injection H as <-. eapply join_safe_raise. exact Hj.
  - intros H. injection H as <-. eapply iter_raise. exact Hi.
Qed.

Lemma chosen_name_raise w sd fname ts e :
  chosen_name w sd fname ts = Raise e -> is_Exception e = true.
Proof.
  assert (D : obind (py_getitem sd (lit "title"))
                (fun title =>
                   Filename.derive_output_filename (unicode_isalnum w) title ts)
              = Raise e -> is_Exception e = true).
  { intros H. apply obind_raise in H. destruct H as [H | (t & _ & H)].
    - eapply getitem_raise. exact H.
    - eapply derive_raise. exact H. }
  unfold chosen_name. destruct fname as [f|]; [|exact D].
  destruct (negb (truthy (PStr f))); [exact D | discriminate].
Qed.

Lemma summary_reads_raise stp e :
  summary_reads stp = Raise e -> is_Exception e = true.
Proof.
  unfold summary_reads. intros H.
  repeat (apply obind_raise in H; destruct H as [H | (? & _ & H)];
          [eapply getitem_raise; exact H|]).
  eapply len_raise. exact H.
Qed.

(** The exception of a detail text that could not be computed. *)
Ltac detail_exn H :=
  lazymatch type of H with
  | obind _ _ = Raise _ =>
      let a := fresh in
      apply obind_raise in H; destruct H as [H | (a & _ & H)];
      detail_exn H
  | py_get _ _ _ = Raise _ => exact (get_raise _ _ _ H)
  | py_getitem _ _ = Raise _ => exact (getitem_raise _ _ H)
  | len_val _ = Raise _ => exact (len_val_raise _ H)
  | path_name_of _ = Raise _ => exact (path_name_raise _ H)
  | chosen_name _ _ _ _ = Raise _ => exact (chosen_name_raise _ _ _ _ H)
  | summary_reads _ = Raise _ => exact (summary_reads_raise _ H)
  | Ok _ = Raise _ => discriminate H
  end.

(** X14. [run] raises nothing of its own and lets nothing that derives
    from [Exception] out: when it raises, the exception is outside
    [Exception] and is the one a collaborator (a stage transform, the
    progress callback or the metadata write) raised in the last thing the
    run did. *)
Theorem run_raises_only_for_collaborator w use_storyboard user_prompt fname
    ns sd cb now e :
  let x := run w use_storyboard user_prompt fname ns sd cb now in
  fst x = Raise e ->
  is_Exception e = false
  /\ exists h ev, history (snd x) = h ++ [ev] /\ raised_by ev = Some e.
Proof.
  cbv zeta.
  change ((fun x => fst x = Raise e ->
    is_Exception e = false
    /\ exists h ev, history (snd x) = h ++ [ev] /\ raised_by ev = Some e)
    (run w use_storyboard user_prompt fname ns sd cb now)).
  destruct cb as [f|]; destruct use_storyboard; start_walk_eq.
  all: intros Hr; try discriminate Hr; injection Hr as <-.
  all: split; [assumption|].
  all: first
    [ do 2 eexists; split; reflexivity
    | exfalso;
      match goal with
      | Hne : is_Exception ?e0 = false, H : _ = Raise ?e0 |- _ =>
          assert (is_Exception e0 = true) by detail_exn H; congruence
      end ].
Qed.

Lemma all_wired_in us up ns sd h c recorded r :
  all_wired us up ns sd h -> In (Invoked c recorded r) h ->
  wired us up ns sd c recorded.
Proof.
  induction h as [|ev h IH]; simpl; [contradiction|].
  destruct ev; intros Hall [Heq | Hin]; try discriminate Heq; auto.
  - injection Heq as -> -> ->. tauto.
  - apply IH; tauto.
Qed.

Ltac prefix_of_sequence :=
  first [ exists 0; reflexivity | exists 1; reflexivity | exists 2; reflexivity
        | exists 3; reflexivity | exists 4; reflexivity | exists 5; reflexivity
        | exists 6; reflexivity ].

(** What holds of every run, wherever it stops. *)
Lemma run_invariants w use_storyboard user_prompt fname ns sd cb now :
  let x := run w use_storyboard user_prompt fname ns sd cb now in
  (exists k, invoked (history (snd x))
             = firstn k (stage_sequence use_storyboard))
  /\ all_wired use_storyboard user_prompt ns sd (history (snd x))
  /\ current_project (snd x)
     = mkProject user_prompt now (completed (history (snd x)))
  /\ (forall r, fst x = Ok r -> project_data r = current_project (snd x)).
Proof.
  cbv zeta.
  change ((fun x =>
    (exists k, invoked (history (snd x))
               = firstn k (stage_sequence use_storyboard))
    /\ all_wired use_storyboard user_prompt ns sd (history (snd x))
    /\ current_project (snd x)
       = mkProject user_prompt now (completed (history (snd x)))
    /\ (forall r, fst x = Ok r -> project_data r = current_project (snd x)))
    (run w use_storyboard user_prompt fname ns sd cb now)).
  destruct cb as [f|]; destruct use_storyboard; start_walk.
  all: split; [prefix_of_sequence|].
  all: split; [vm_compute; tauto|].
  all: split; [reflexivity|].
  all: intros r Hr; try discriminate Hr; injection Hr as <-; reflexivity.
Qed.

(** X15. The stage transforms are invoked in the order of the sequence,
    each at most once and none before all its predecessors: the stages
    invoked form a prefix of the executed sequence. *)
Theorem stages_invoked_in_order w use_storyboard user_prompt fname ns sd cb
    now :
  let h := history (snd (run w use_storyboard user_prompt fname ns sd cb now)) in
  (exists k, invoked h = firstn k (stage_sequence use_storyboard))
  /\ NoDup (invoked h).
Proof.
  cbv zeta.
  destruct (run_invariants w use_storyboard user_prompt fname ns sd cb now)
    as [[k Hk] _].
  split; [exists k; exact Hk|]. rewrite Hk.
  assert (Hnd : NoDup (stage_sequence use_storyboard)).
  { destruct use_storyboard; repeat constructor; simpl; intuition discriminate. }
  rewrite <- (firstn_skipn k (stage_sequence use_storyboard)) in Hnd.
  apply NoDup_app_remove_r in Hnd. exact Hnd.
Qed.

(** X16. Each stage transform is called with the caller's arguments and
    the outputs recorded for the stages it depends on: the prompt for the
    script; the recorded script for scene planning and for the voiceover;
    the recorded scene plan for the storyboard and for the clips, which
    also get the recorded storyboard images, or [None] when storyboards
    are disabled; the recorded clips and audio for the assembly. *)
Theorem stage_inputs_wired w use_storyboard user_prompt fname ns sd cb now c
    recorded r :
  In (Invoked c recorded r)
     (history (snd (run w use_storyboard user_prompt fname ns sd cb now))) ->
  wired use_storyboard user_prompt ns sd c recorded.
Proof.
  apply all_wired_in.
  apply (run_invariants w use_storyboard user_prompt fname ns sd cb now).
Qed.

(** X17. Throughout a run the project keeps the caller's prompt and the
    timestamp of the start, and its stage map holds the outputs of the
    stages that returned, in the order they returned, each under the key
    of its stage; this is the project the result carries. *)
Theorem project_is_completed_stages w use_storyboard user_prompt fname ns sd
    cb now :
  let x := run w use_storyboard user_prompt fname ns sd cb now in
  current_project (snd x)
  = mkProject user_prompt now (completed (history (snd x)))
  /\ (forall r, fst x = Ok r -> project_data r = current_project (snd x)).
Proof.
  cbv zeta.
  apply (run_invariants w use_storyboard user_prompt fname ns sd cb now).
Qed.

(** What holds of a run that returns success. *)
Lemma success_facts w use_storyboard user_prompt fname ns sd cb now r :
  let x := run w use_storyboard user_prompt fname ns sd cb now in
  fst x = Ok r -> success r = true ->
  metadata_writes (history (snd x)) = [(project_data r, Ok tt)]
  /\ metadata_paths (history (snd x))
     = [PathJoin (OUTPUT_DIR w) (lit "project_" ++ now ++ lit ".json")]
  /\ invoked (history (snd x)) = stage_sequence use_storyboard
  /\ script r = dict_lookup (lit "script") (steps (project_data r))
  /\ scenes r = dict_lookup (lit "scenes") (steps (project_data r))
  /\ video_path r = dict_lookup (lit "final_video") (steps (project_data r))
  /\ (exists n, summary_reads (steps (project_data r)) = Ok n)
  /\ (exists text, report r = Ok text)
  /\ (exists v s0 p0,
        video_path r = Some v /\ script r = Some s0 /\ scenes r = Some p0).
Proof.
  cbv zeta. revert r.
  change ((fun x => forall r, fst x = Ok r -> success r = true ->
    metadata_writes (history (snd x)) = [(project_data r, Ok tt)]
    /\ metadata_paths (history (snd x))
       = [PathJoin (OUTPUT_DIR w) (lit "project_" ++ now ++ lit ".json")]
    /\ invoked (history (snd x)) = stage_sequence use_storyboard
    /\ script r = dict_lookup (lit "script") (steps (project_data r))
    /\ scenes r = dict_lookup (lit "scenes") (steps (project_data r))
    /\ video_path r = dict_lookup (lit "final_video") (steps (project_data r))
    /\ (exists n, summary_reads (steps (project_data r)) = Ok n)
    /\ (exists text, report r = Ok text)
    /\ (exists v s0 p0,
          video_path r = Some v /\ script r = Some s0 /\ scenes r = Some p0))
    (run w use_storyboard user_prompt fname ns sd cb now)).
  destruct cb as [f|]; destruct use_storyboard; start_walk_eq.
  all: intros r Hr; try discriminate Hr; injection Hr as <-;
    cbn [success]; intros Hs; try discriminate Hs.
  all: cbn [project_data script scenes video_path steps].
  all: repeat (split; [reflexivity|]).
  all: split; [eexists; eassumption|].
  all: split; [eexists; reflexivity|].
  all: do 3 eexists; repeat split; reflexivity.
Qed.

(** X18. A run that returns success wrote the metadata file exactly once,
    after the last stage, at [OUTPUT_DIR / name] for the name made of
    [project_], the timestamp and [.json]; what it wrote is the project
    the result carries. *)
Theorem success_wrote_metadata_once w use_storyboard user_prompt fname ns sd
    cb now r :
  let x := run w use_storyboard user_prompt fname ns sd cb now in
  fst x = Ok r -> success r = true ->
  metadata_writes (history (snd x)) = [(project_data r, Ok tt)]
  /\ metadata_paths (history (snd x))
     = [PathJoin (OUTPUT_DIR w) (lit "project_" ++ now ++ lit ".json")]
  /\ invoked (history (snd x)) = stage_sequence use_storyboard.
Proof.
  cbv zeta. intros Hr Hs.
  destruct (success_facts w use_storyboard user_prompt fname ns sd cb now Hr Hs)
    as (H1 & H2 & H3 & _).
  auto.
Qed.

(** X19. In a result that reports success, the script, the scenes and the
    video path are the outputs recorded in the stage map for the script,
    the scene plan and the final video. *)
Theorem success_fields_are_recorded w use_storyboard user_prompt fname ns sd
    cb now r :
  fst (run w use_storyboard user_prompt fname ns sd cb now) = Ok r ->
  success r = true ->
  script r = dict_lookup (lit "script") (steps (project_data r))
  /\ scenes r = dict_lookup (lit "scenes") (steps (project_data r))
  /\ video_path r = dict_lookup (lit "final_video") (steps (project_data r))
  /\ script r <> None /\ scenes r <> None /\ video_path r <> None.
Proof.
  intros Hr Hs.
  destruct (success_facts w use_storyboard user_prompt fname ns sd cb now Hr Hs)
    as (_ & _ & _ & H1 & H2 & H3 & _ & _ & v & s0 & p0 & Hv & Hsc & Hpl).
  rewrite <- H1, <- H2, <- H3, Hv, Hsc, Hpl.
  repeat split; auto; discriminate.
Qed.

Lemma obind_ok A B (m : outcome A) (k : A -> outcome B) b :
  obind m k = Ok b -> exists a, m = Ok a /\ k a = Ok b.
Proof. destruct m as [a|e]; simpl; intros H; [eauto | discriminate]. Qed.

(** X20. A run returns success only if the summary could be printed: the
    script it recorded can be subscripted by ["title"], and the scene plan
    it recorded by ["scenes"], with a value that has a length. *)
Theorem success_needs_title_and_scenes w use_storyboard user_prompt fname ns
    sd cb now r :
  fst (run w use_storyboard user_prompt fname ns sd cb now) = Ok r ->
  success r = true ->
  exists script_data scene_plan title scene_list n,
    script r = Some script_data /\ scenes r = Some scene_plan
    /\ py_getitem script_data (lit "title") = Ok title
    /\ py_getitem scene_plan (lit "scenes") = Ok scene_list
    /\ py_len scene_list = Ok n.
Proof.
  intros Hr Hs.
  destruct (success_facts w use_storyboard user_prompt fname ns sd cb now Hr Hs)
    as (_ & _ & _ & H1 & H2 & _ & (n & Hn) & _ & v & s0 & p0 & _ & Hsc & Hpl).
  unfold summary_reads in Hn.
  apply obind_ok in Hn. destruct Hn as (s1 & Hs1 & Hn).
  apply obind_ok in Hn. destruct Hn as (t & Ht & Hn).
  apply obind_ok in Hn. destruct Hn as (p1 & Hp1 & Hn).
  apply obind_ok in Hn. destruct Hn as (l & Hl & Hn).
  apply getitem_ok_dict in Hs1. destruct Hs1 as (d & Hd & Hs1).
  injection Hd as <-.
  apply getitem_ok_dict in Hp1. destruct Hp1 as (d' & Hd' & Hp1).
  injection Hd' as <-.
  rewrite Hs1 in H1. rewrite Hp1 in H2.
  exists s1, p1, t, l, n. auto.
Qed.

(** X21. The [__main__] block never misses a key of the result: for
    every result of [run], the key it reads ([video_path] on success,
    [error] otherwise) is there. *)
Theorem report_finds_its_key w use_storyboard user_prompt fname ns sd cb now
    r :
  fst (run w use_storyboard user_prompt fname ns sd cb now) = Ok r ->
  (success r = true /\ exists v, video_path r = Some v
     /\ report r = Ok [FLit "✅ Video created: "; FVal v])
  \/ (success r = false /\ exists m, error r = Some m
        /\ report r = Ok [FLit "❌ Failed: "; FVal (PStr m)]).
Proof.
  revert r.
  change ((fun x => forall r, fst x = Ok r ->
    (success r = true /\ exists v, video_path r = Some v
       /\ report r = Ok [FLit "✅ Video created: "; FVal v])
    \/ (success r = false /\ exists m, error r = Some m
          /\ report r = Ok [FLit "❌ Failed: "; FVal (PStr m)]))
    (run w use_storyboard user_prompt fname ns sd cb now)).
  destruct cb as [f|]; destruct use_storyboard; start_walk.
  all: intros r Hr; try discriminate Hr; injection Hr as <-.
  all: first [ left; split; [reflexivity|]; eexists; split; reflexivity
             | right; split; [reflexivity|]; eexists; split; reflexivity ].
Qed.

Lemma get_detail_ok A v k d (f : pyval -> outcome A) x :
  obind (py_get v k d) f = Ok x -> exists dd, v = PDict dd.
Proof.
  intros H. apply obind_ok in H. destruct H as (a & H & _).
  destruct v; try discriminate H. eauto.
Qed.

Lemma len_detail_ok A v (f : pyval -> outcome A) x :
  obind (len_val v) f = Ok x -> exists n, py_len v = Ok n.
Proof.
  intros H. apply obind_ok in H. destruct H as (a & H & _).
  unfold len_val in H. destruct (py_len v); [eauto | discriminate].
Qed.

Lemma len_or_detail_ok A v (f : pyval -> outcome A) x :
  obind (len_val (py_or v (PList []))) f = Ok x -> truthy v = true ->
  exists n, py_len v = Ok n.
Proof.
  intros H Ht. unfold py_or in H. rewrite Ht in H.
  eapply len_detail_ok. exact H.
Qed.

Lemma path_detail_ok A v (f : fpart -> outcome A) x :
  obind (path_name_of v) f = Ok x -> exists s, v = PStr s.
Proof.
  intros H. apply obind_ok in H. destruct H as (a & H & _).
  destruct v; try discriminate H. eauto.
Qed.

(** X22. With a progress callback, a run returns success only if the
    details of the notifications could be computed: the script and the
    scene plan are dictionaries, the clips have a length, the audio path
    is a string, and storyboard images that are not empty have a
    length. *)
Theorem callback_needs_typed_outputs w use_storyboard user_prompt fname ns sd
    f now r :
  fst (run w use_storyboard user_prompt fname ns sd (Some f) now) = Ok r ->
  success r = true ->
  let stp := steps (project_data r) in
  (forall v, dict_lookup (lit "script") stp = Some v -> exists d, v = PDict d)
  /\ (forall v, dict_lookup (lit "scenes") stp = Some v -> exists d, v = PDict d)
  /\ (forall v, dict_lookup (lit "storyboard") stp = Some v ->
      truthy v = true -> exists n, py_len v = Ok n)
  /\ (forall v, dict_lookup (lit "clips") stp = Some v ->
      exists n, py_len v = Ok n)
  /\ (forall v, dict_lookup (lit "audio") stp = Some v -> exists s, v = PStr s).
Proof.
  revert r.
  change ((fun x => forall r, fst x = Ok r -> success r = true ->
    let stp := steps (project_data r) in
    (forall v, dict_lookup (lit "script") stp = Some v -> exists d, v = PDict d)
    /\ (forall v, dict_lookup (lit "scenes") stp = Some v ->
        exists d, v = PDict d)
    /\ (forall v, dict_lookup (lit "storyboard") stp = Some v ->
        truthy v = true -> exists n, py_len v = Ok n)
    /\ (forall v, dict_lookup (lit "clips") stp = Some v ->
        exists n, py_len v = Ok n)
    /\ (forall v, dict_lookup (lit "audio") stp = Some v ->
        exists s, v = PStr s))
    (run w use_storyboard user_prompt fname ns sd (Some f) now)).
  destruct use_storyboard; start_walk.
  all: intros r Hr; try discriminate Hr; injection Hr as <-;
    cbn [success]; intros Hs; try discriminate Hs.
  all: cbv zeta; cbn [project_data steps].
  all: repeat split; intros vlk Hlk; vm_compute in Hlk;
    try discriminate Hlk; injection Hlk as <-.
  all: try (intros Htruthy).
  all: first [ eapply get_detail_ok; eassumption
             | eapply len_or_detail_ok; eassumption
             | eapply len_detail_ok; eassumption
             | eapply path_detail_ok; eassumption ].
Qed.

(** A new equation about something the run already evaluated: the value
    is the one already known, or the equation is absurd. *)
Ltac resolve_new :=
  match goal with
  | H : ?lhs = Ok _, H' : ?lhs = _ |- _ =>
      rewrite H in H';
      first [ discriminate H' | injection H' as <- | clear H' ]
  end.

Ltac wp_walk_again :=
  repeat (lazymatch goal with
          | |- final _ (handled _ _) => apply final_handled; intros ?
          | |- final _ _ => fail
          | |- _ => wp_head_eq
          end; try resolve_new).

(** X23. A progress callback is not needed: when a run with a callback
    returns success, the same run without one returns the same result,
    and does what the first did apart from the notifications. *)
Theorem callback_not_needed w use_storyboard user_prompt fname ns sd f now r :
  let x := run w use_storyboard user_prompt fname ns sd (Some f) now in
  let y := run w use_storyboard user_prompt fname ns sd None now in
  fst x = Ok r -> success r = true ->
  fst y = Ok r /\ history (snd y) = drop_notifications (history (snd x)).
Proof.
  cbv zeta. revert r.
  pose (Phi := fun (us : bool) (x : outcome RunResult * state) =>
    forall r, fst x = Ok r -> success r = true ->
    fst (run w us user_prompt fname ns sd None now) = Ok r
    /\ history (snd (run w us user_prompt fname ns sd None now))
       = drop_notifications (history (snd x))).
  change (Phi use_storyboard
            (run w use_storyboard user_prompt fname ns sd (Some f) now)).
  destruct use_storyboard.
  - refine (@wp_run w true (Phi true) user_prompt fname ns sd (Some f) now _).
    unfold run_body. wp_walk_eq. all: unfold final, Phi; cbn [fst snd].
    all: intros r Hr; try discriminate Hr; injection Hr as <-;
      cbn [success]; intros Hs; try discriminate Hs.
    pattern (run w true user_prompt fname ns sd None now).
    apply wp_run. unfold run_body. wp_walk_again.
    unfold final. cbn [fst snd]. split; reflexivity.
  - refine (@wp_run w false (Phi false) user_prompt fname ns sd (Some f) now _).
    unfold run_body. wp_walk_eq. all: unfold final, Phi; cbn [fst snd].
    all: intros r Hr; try discriminate Hr; injection Hr as <-;
      cbn [success]; intros Hs; try discriminate Hs.
    pattern (run w false user_prompt fname ns sd None now).
    apply wp_run. unfold run_body. wp_walk_again.
    unfold final. cbn [fst snd]. split; reflexivity.
Qed.

(** X24. When no output file name is supplied (or an empty one) and no
    name can be derived from the title of the script, a number or [None]
    for one, the assembler is never called and the run does not return
    success. *)
Theorem underivable_name_stops_assembly w use_storyboard user_prompt fname ns
    sd cb now script_data title e :
  transform w (CallScript user_prompt) = Ok script_data ->
  py_getitem script_data (lit "title") = Ok title ->
  Filename.derive_output_filename (unicode_isalnum w) title now = Raise e ->
  fname = None \/ fname = Some [] ->
  let x := run w use_storyboard user_prompt fname ns sd cb now in
  assembled_paths (history (snd x)) = []
  /\ (forall r, fst x = Ok r -> success r = false).
Proof.
  intros Htr Hg Hd Hf. cbv zeta.
  change ((fun x => assembled_paths (history (snd x)) = []
                    /\ (forall r, fst x = Ok r -> success r = false))
    (run w use_storyboard user_prompt fname ns sd cb now)).
  destruct Hf as [-> | ->]; destruct cb as [f|]; destruct use_storyboard;
    start_walk_eq.
  all: try match goal with
       | H1 : transform _ (CallScript _) = Ok ?v,
         H2 : chosen_name _ ?v _ _ = Ok _ |- _ =>
           exfalso; rewrite Htr in H1; injection H1 as <-;
           unfold chosen_name in H2; cbn [truthy negb] in H2;
           rewrite Hg in H2; cbn [obind] in H2; rewrite Hd in H2;
           discriminate H2
       end.
  all: split; [reflexivity|].
  all: intros r Hr; try discriminate Hr; injection Hr as <-; reflexivity.
Qed.

End PipelineMore.

(* ================================================================== *)
(** ** The further facts at concrete runs *)

Module Scenarios2.
Import Py Pipeline Examples Examples2 Observations.

(** A scene plan without scenes: the video is assembled and the metadata
    written, and the run reports the failure of the summary. *)
Example scenario_plan_without_scenes :
  option_map success (returned (run_of world_plan_without_scenes None))
  = Some false
  /\ option_map error (returned (run_of world_plan_without_scenes None))
     = Some (Some (lit "'scenes'"))
  /\ invoked (history (snd (run_of world_plan_without_scenes None)))
     = stage_sequence false
  /\ map snd (metadata_writes
                (history (snd (run_of world_plan_without_scenes None))))
     = [Ok tt].
Proof. vm_compute. auto. Qed.

(** An audio path that is no string: the run succeeds without a callback
    and fails with one, on the detail of the notification. *)
Example scenario_audio_not_a_path :
  option_map success (returned (run_of world_audio_not_a_path None))
  = Some true
  /\ option_map success
       (returned (run_of world_audio_not_a_path (Some quiet)))
     = Some false.
Proof. vm_compute. auto. Qed.

Lemma run_raises_only_for_collaborator_witness :
  fst (run_of world_interrupted (Some quiet)) = Raise interrupted
  /\ is_Exception interrupted = false
  /\ exists h ev,
       history (snd (run_of world_interrupted (Some quiet))) = h ++ [ev]
       /\ raised_by ev = Some interrupted.
Proof.
  assert (H : fst (run_of world_interrupted (Some quiet)) = Raise interrupted)
    by (vm_compute; reflexivity).
  split; [exact H|].
  apply (@PipelineMore.run_raises_only_for_collaborator world_interrupted false
           prompt_rainbows None PNone PNone (Some quiet) now_sample interrupted
           H).
Defined.

Lemma stage_inputs_wired_witness :
  In (Invoked (CallAudio (json_value doc_rainbows))
        [(lit "script", json_value doc_rainbows); (lit "scenes", scene_plan_2);
         (lit "clips", PList [PStr (lit "c1.mp4"); PStr (lit "c2.mp4")])]
        (Ok (PStr (lit "temp/voiceover.mp3"))))
     (history (snd (run good_world false prompt_rainbows None PNone PNone None
                      now_sample)))
  /\ wired false prompt_rainbows PNone PNone
       (CallAudio (json_value doc_rainbows))
       [(lit "script", json_value doc_rainbows); (lit "scenes", scene_plan_2);
        (lit "clips", PList [PStr (lit "c1.mp4"); PStr (lit "c2.mp4")])].
Proof.
  assert (H : In (Invoked (CallAudio (json_value doc_rainbows))
                    [(lit "script", json_value doc_rainbows);
                     (lit "scenes", scene_plan_2);
                     (lit "clips",
                      PList [PStr (lit "c1.mp4"); PStr (lit "c2.mp4")])]
                    (Ok (PStr (lit "temp/voiceover.mp3"))))
                 (history (snd (run good_world false prompt_rainbows None PNone
                                  PNone None now_sample))))
    by (vm_compute; tauto).
  split; [exact H|].
  exact (@PipelineMore.stage_inputs_wired good_world false prompt_rainbows None
           PNone PNone None now_sample
           (CallAudio (json_value doc_rainbows))
           [(lit "script", json_value doc_rainbows);
            (lit "scenes", scene_plan_2);
            (lit "clips", PList [PStr (lit "c1.mp4"); PStr (lit "c2.mp4")])]
           (Ok (PStr (lit "temp/voiceover.mp3"))) H).
Defined.

Lemma success_wrote_metadata_once_witness :
  exists r,
    fst (run_of good_world (Some quiet)) = Ok r /\ success r = true
    /\ metadata_writes (history (snd (run_of good_world (Some quiet))))
       = [(project_data r, Ok tt)]
    /\ metadata_paths (history (snd (run_of good_world (Some quiet))))
       = [PathJoin (OUTPUT_DIR good_world)
            (lit "project_" ++ now_sample ++ lit ".json")]
    /\ invoked (history (snd (run_of good_world (Some quiet))))
       = stage_sequence false.
Proof.
  eexists. split; [vm_compute; reflexivity|]. split; [reflexivity|].
  apply (@PipelineMore.success_wrote_metadata_once good_world false
           prompt_rainbows None PNone PNone (Some quiet) now_sample);
    [vm_compute; reflexivity | reflexivity].
Defined.

Lemma success_fields_are_recorded_witness :
  exists r,
    fst (run_of good_world (Some quiet)) = Ok r /\ success r = true
    /\ script r = dict_lookup (lit "script") (steps (project_data r))
    /\ scenes r = dict_lookup (lit "scenes") (steps (project_data r))
    /\ video_path r = dict_lookup (lit "final_video") (steps (project_data r))
    /\ script r <> None /\ scenes r <> None /\ video_path r <> None.
Proof.
  eexists. split; [vm_compute; reflexivity|]. split; [reflexivity|].
  apply (@PipelineMore.success_fields_are_recorded good_world false
           prompt_rainbows None PNone PNone (Some quiet) now_sample);
    [vm_compute; reflexivity | reflexivity].
Defined.

Lemma success_needs_title_and_scenes_witness :
  exists r,
    fst (run_of good_world (Some quiet)) = Ok r /\ success r = true
    /\ exists script_data scene_plan title scene_list n,
         script r = Some script_data /\ scenes r = Some scene_plan
         /\ py_getitem script_data (lit "title") = Ok title
         /\ py_getitem scene_plan (lit "scenes") = Ok scene_list
         /\ py_len scene_list = Ok n.
Proof.
  eexists. split; [vm_compute; reflexivity|]. split; [reflexivity|].
  apply (@PipelineMore.success_needs_title_and_scenes good_world false
           prompt_rainbows None PNone PNone (Some quiet) now_sample);
    [vm_compute; reflexivity | reflexivity].
Defined.

Lemma report_finds_its_key_witness :
  exists r,
    fst (run_of world_plan_without_scenes None) = Ok r
    /\ ((success r = true /\ exists v, video_path r = Some v
           /\ report r = Ok [FLit "✅ Video created: "; FVal v])
        \/ (success r = false /\ exists m, error r = Some m
              /\ report r = Ok [FLit "❌ Failed: "; FVal (PStr m)])).
Proof.
  eexists. split; [vm_compute; reflexivity|].
  apply (@PipelineMore.report_finds_its_key world_plan_without_scenes false
           prompt_rainbows None PNone PNone None now_sample).
  vm_compute. reflexivity.
Defined.

Lemma callback_needs_typed_outputs_witness :
  exists r,
    fst (run_of good_world (Some quiet)) = Ok r /\ success r = true
    /\ (forall v, dict_lookup (lit "script") (steps (project_data r)) = Some v ->
        exists d, v = PDict d)
    /\ (forall v, dict_lookup (lit "scenes") (steps (project_data r)) = Some v ->
        exists d, v = PDict d)
    /\ (forall v, dict_lookup (lit "storyboard") (steps (project_data r))
                  = Some v ->
        truthy v = true -> exists n, py_len v = Ok n)
    /\ (forall v, dict_lookup (lit "clips") (steps (project_data r)) = Some v ->
        exists n, py_len v = Ok n)
    /\ (forall v, dict_lookup (lit "audio") (steps (project_data r)) = Some v ->
        exists s, v = PStr s).
Proof.
  eexists. split; [vm_compute; reflexivity|]. split; [reflexivity|].
  apply (@PipelineMore.callback_needs_typed_outputs good_world false
           prompt_rainbows None PNone PNone quiet now_sample);
    [vm_compute; reflexivity | reflexivity].
Defined.

Lemma callback_not_needed_witness :
  exists r,
    fst (run_of good_world (Some quiet)) = Ok r /\ success r = true
    /\ fst (run_of good_world None) = Ok r
    /\ history (snd (run_of good_world None))
       = drop_notifications (history (snd (run_of good_world (Some quiet)))).
Proof.
  eexists. split; [vm_compute; reflexivity|]. split; [reflexivity|].
  apply (@PipelineMore.callback_not_needed good_world false prompt_rainbows
           None PNone PNone quiet now_sample);
    [vm_compute; reflexivity | reflexivity].
Defined.

Lemma underivable_name_stops_assembly_witness :
  transform world_numeric_title (CallScript prompt_rainbows)
  = Ok script_numeric_title
  /\ py_getitem script_numeric_title (lit "title") = Ok (PInt 2024)
  /\ Filename.derive_output_filename (unicode_isalnum world_numeric_title)
       (PInt 2024) now_sample
     = Raise (mkExn TypeError (lit "'int' object is not iterable"))
  /\ (@None pystr = None \/ @None pystr = Some [])
  /\ assembled_paths (history (snd (run_of world_numeric_title None))) = []
  /\ (forall r, fst (run_of world_numeric_title None) = Ok r ->
      success r = false).
Proof.
  split; [reflexivity|]. split; [reflexivity|]. split; [reflexivity|].
  split; [left; reflexivity|].
  apply (@PipelineMore.underivable_name_stops_assembly world_numeric_title
           false prompt_rainbows None PNone PNone None now_sample
           script_numeric_title (PInt 2024)
           (mkExn TypeError (lit "'int' object is not iterable")));
    first [reflexivity | left; reflexivity].
Defined.

End Scenarios2.
